(** * systemcheck.py: a shallow embedding and its verified properties

    The script is a single polling loop.  Its pure parts (byte scaling,
    network rate) become Rocq functions; its effectful parts (printing,
    platform queries, the hardware-sensor backend) become functions from
    the answers of the outside world to a trace of events, with the
    process-wide globals threaded explicitly.

    Numbers.  Python [int] is [Z].  Python [float] is modelled by exact
    rationals [Q]: every operation the script performs on floats
    (subtraction of timestamps, division by the elapsed time, division by
    1024, comparison) is taken without rounding error, and [float('nan')]
    is a separate constructor of [pyfloat].  Infinities and the sign of
    zero are not represented. *)

From Stdlib Require Import ZArith QArith Qround Qabs String Ascii List Bool
  Lia Lqa DecimalString.
Import ListNotations.

Local Open Scope string_scope.
Local Open Scope Q_scope.

(** ** Python-level helpers *)

Module Py.

(** [x < y] on floats. *)
Definition ltb (x y : Q) : bool := negb (Qle_bool y x).

(** Rounding to the nearest integer, ties to even: the rounding mode of
    the [.Nf] format specifier. *)
Definition round_half_even (q : Q) : Z :=
  let f := Qfloor q in
  match Qcompare (q - inject_Z f) (1 # 2) with
  | Lt => f
  | Gt => (f + 1)%Z
  | Eq => if Z.even f then f else (f + 1)%Z
  end.

Definition digits (n : Z) : string := NilZero.string_of_uint (N.to_uint (Z.to_N n)).

Fixpoint zfill (width : nat) (s : string) : string :=
  match width with
  | O => s
  | S w => if Nat.ltb (String.length s) width then zfill w ("0" ++ s) else s
  end.

(** [f"{x:.{prec}f}"] for a finite [x]. *)
Definition format_f (prec : nat) (x : Q) : string :=
  let p := (10 ^ Z.of_nat prec)%Z in
  let r := round_half_even (Qabs x * inject_Z p) in
  let sign := if ltb x 0 then "-" else "" in
  let frac := match prec with
              | O => ""
              | _ => "." ++ zfill prec (digits (r mod p))
              end in
  sign ++ digits (r / p) ++ frac.

(** [str(x)] of an optional string ([None] prints as the word None). *)
Definition str_opt (o : option string) : string :=
  match o with
  | Some s => s
  | None => "None"
  end.

(** Truthiness of a string-or-None. *)
Definition truthy_str (o : option string) : bool :=
  match o with
  | Some "" => false
  | Some _ => true
  | None => false
  end.

(** Truthiness of a float-or-None. *)
Definition truthy_float (o : option Q) : bool :=
  match o with
  | Some q => negb (Qeq_bool q 0)
  | None => false
  end.

End Py.

(** ** get_size_gb *)

Definition factor : Q := 1024.

Definition units : list string := [""; "K"; "M"; "G"; "T"; "P"].

(** The [for unit in ...] loop together with the statement after it:
    the value that is formatted and the unit letter that is printed.
    The division is the exact one of the rationals.  That is the
    script's own division on every float (dividing a double of at least
    1024 by 1024 is exact) and on every int below 2^53; the first
    division of a larger int rounds to the nearest double in the script
    and does not here. *)
Fixpoint scale_loop (us : list string) (bytes_val : Q) : Q * string :=
  match us with
  | [] => (bytes_val, "P")
  | unit :: rest =>
      if Py.ltb bytes_val factor then (bytes_val, unit)
      else scale_loop rest (bytes_val / factor)
  end.

Definition scale_bytes (bytes_val : Q) : Q * string :=
  scale_loop units bytes_val.

Definition get_size_gb (bytes_val : Q) (suffix : string) : string :=
  let '(v, unit) := scale_bytes bytes_val in
  Py.format_f 2 v ++ unit ++ suffix.

(** ** Process-wide globals *)

(** [psutil.net_io_counters()]: the two cumulative counters the script reads. *)
Record snetio := { bytes_sent : Z; bytes_recv : Z }.

(** The module-level variables that outlive a call. *)
Record globals := {
  libre_hw_monitor_available : bool;
  libre_hw_monitor_error : option string;
  last_net_io : snetio;
  last_time_net : Q
}.

Definition set_net_baseline (g : globals) (io : snetio) (t : Q) : globals :=
  {| libre_hw_monitor_available := libre_hw_monitor_available g;
     libre_hw_monitor_error := libre_hw_monitor_error g;
     last_net_io := io;
     last_time_net := t |}.

(** ** get_network_speed

    [current_net_io] and [current_time] are what the two platform reads at
    the top of the function return.  The result is the returned 4-tuple
    and the globals after the call. *)
Definition get_network_speed (g : globals) (current_net_io : snetio)
    (current_time : Q) : (Q * Q * Z * Z) * globals :=
  let elapsed_time := current_time - last_time_net g in
  if Qeq_bool elapsed_time 0 then
    ((0, 0, bytes_sent current_net_io, bytes_recv current_net_io), g)
  else
    let bytes_sent_diff :=
      (bytes_sent current_net_io - bytes_sent (last_net_io g))%Z in
    let bytes_recv_diff :=
      (bytes_recv current_net_io - bytes_recv (last_net_io g))%Z in
    let upload_speed := inject_Z bytes_sent_diff / elapsed_time in
    let download_speed := inject_Z bytes_recv_diff / elapsed_time in
    ((upload_speed, download_speed,
      bytes_sent current_net_io, bytes_recv current_net_io),
     set_net_baseline g current_net_io current_time).

(** ** The hardware-sensor backend and get_temperatures_lhm *)

Inductive pyfloat := Fin (q : Q) | NaN.

Inductive sensor_type := Temperature | Voltage | Clock | Load | Fan | Power.

Definition is_temperature (t : sensor_type) : bool :=
  match t with Temperature => true | _ => false end.

(** A sensor of the backend; [Value = None] is the null value. *)
Record sensor := {
  SensorType : sensor_type;
  SensorName : string;
  Value : option pyfloat
}.

(** A hardware item; [Update_raises = Some e] means its [Update()] raises
    an exception whose text is [e]. *)
Record hardware_item := {
  Update_raises : option string;
  Name : string;
  Sensors : list sensor
}.

(** What the backend does when driven: each step may raise. *)
Record computer := {
  Computer_raises : option string;
  Open_raises : option string;
  Hardware : list hardware_item;
  Close_raises : option string
}.

(** One element of a group's list: the dict with keys label and current. *)
Record entry := { label : string; current : pyfloat }.

(** A Python dict with string keys: insertion-ordered, assigning to an
    existing key keeps its position. *)
Definition dict (V : Type) := list (string * V).

Fixpoint dict_set {V} (d : dict V) (k : string) (v : V) : dict V :=
  match d with
  | [] => [(k, v)]
  | (k', v') :: rest =>
      if String.eqb k' k then (k', v) :: rest else (k', v') :: dict_set rest k v
  end.

Fixpoint dict_get {V} (d : dict V) (k : string) : option V :=
  match d with
  | [] => None
  | (k', v') :: rest => if String.eqb k' k then Some v' else dict_get rest k
  end.

(** The body of a [try]: either an exception (its text) or a value. *)
Definition exc (A : Type) : Type := (string + A)%type.

Definition ret {A} (a : A) : exc A := inr a.

Definition bind {A B} (m : exc A) (k : A -> exc B) : exc B :=
  match m with
  | inl e => inl e
  | inr a => k a
  end.

(** A step of the backend that returns nothing and may raise. *)
Definition step (raises : option string) : exc unit :=
  match raises with
  | Some e => inl e
  | None => inr tt
  end.

Notation "m ;; k" := (bind m (fun _ => k))
  (at level 61, right associativity).

Definition sensor_entry (s : sensor) : entry :=
  let temp_value := match Value s with
                    | Some v => v
                    | None => NaN
                    end in
  {| label := SensorName s; current := temp_value |}.

(** The inner [for sensor in hardware_item.Sensors] loop. *)
Definition collect_group (sensors : list sensor) : list entry :=
  fold_left
    (fun current_group_temps s =>
       if is_temperature (SensorType s)
       then (current_group_temps ++ [sensor_entry s])%list
       else current_group_temps)
    sensors [].

(** The outer [for hardware_item in computer.Hardware] loop. *)
Fixpoint hardware_loop (hw : list hardware_item) (temps_data : dict (list entry))
    : exc (dict (list entry)) :=
  match hw with
  | [] => ret temps_data
  | hardware_item :: rest =>
      step (Update_raises hardware_item) ;;
      let group_name := Name hardware_item in
      let current_group_temps := collect_group (Sensors hardware_item) in
      match current_group_temps with
      | [] => hardware_loop rest temps_data
      | _ => hardware_loop rest (dict_set temps_data group_name current_group_temps)
      end
  end.

(** The [try] block of get_temperatures_lhm. *)
Definition lhm_try (c : computer) : exc (dict (list entry)) :=
  step (Computer_raises c) ;;
  step (Open_raises c) ;;
  bind (hardware_loop (Hardware c) [])
       (fun temps_data => step (Close_raises c) ;; ret temps_data).

Definition get_temperatures_lhm (g : globals) (c : computer)
    : dict (list entry) * option string :=
  let temps_data : dict (list entry) := [] in
  if negb (libre_hw_monitor_available g) then
    (temps_data,
     Some ("LibreHardwareMonitorLib not loaded. Stored error: "
           ++ Py.str_opt (libre_hw_monitor_error g)))
  else
    match lhm_try c with
    | inr temps_data => (temps_data, None)
    | inl e => ([], Some ("Error during LibreHardwareMonitor operation: " ++ e))
    end.

(** ** The outside world seen by one cycle *)

Record svmem := {
  mem_total : Z; mem_available : Z; mem_percent : Q; mem_used : Z; mem_free : Z
}.

Record sswap := { swap_total : Z; swap_used : Z; swap_percent : Q }.

Record sdiskusage := {
  disk_total : Z; disk_used : Z; disk_free : Z; disk_percent : Q
}.

(** [psutil.disk_usage(path)]: a value, FileNotFoundError, or another
    exception with its text. *)
Inductive disk_result :=
| DiskOk (u : sdiskusage)
| DiskFileNotFound
| DiskException (e : string).

(** One [shwtemp] of the fallback source. *)
Record shwtemp := {
  temp_label : string;
  temp_current : Q;
  temp_high : option Q;
  temp_critical : option Q
}.

(** [psutil.sensors_temperatures()]: a dict, AttributeError (the function
    does not exist on the platform), or another exception with its text. *)
Inductive temps_result :=
| TempsOk (d : dict (list shwtemp))
| TempsAttributeError
| TempsException (e : string).

Record world := {
  now_strftime : string;
  os_name : string;
  cpu_percent_percpu : list Q;
  cpu_percent_total : Q;
  virtual_memory : svmem;
  swap_memory : sswap;
  disk_usage : string -> disk_result;
  net_io_counters : snetio;
  time_time : Q;
  lhm_computer : computer;
  sensors_temperatures : temps_result
}.

(** ** Events of a run *)

Inductive api :=
| ApiCpuPercentPerCpu
| ApiCpuPercent
| ApiVirtualMemory
| ApiSwapMemory
| ApiDiskUsage (path : string)
| ApiNetIoCounters
| ApiLhm
| ApiSensorsTemperatures.

Inductive event :=
| Print (line : string)
| Call (f : api)
| ClearScreen
| Sleep (seconds : Q).

Definition trace := list event.

Definition nl : string := String (ascii_of_nat 10) EmptyString.

Definition degC : string := "째C".

(** ** Configuration *)

Definition UPDATE_INTERVAL : Z := 2.

Definition default_disks (os : string) : list string :=
  if String.eqb os "nt" then ["C:\"] else ["/"].

(** ** display_system_stats, section by section *)

Definition header_section (w : world) : trace :=
  [ Print "System Performance & Temperature Monitor";
    Print "----------------------------------------";
    Print ("Last updated: " ++ now_strftime w);
    Print ("Press Ctrl+C to exit." ++ nl) ].

Definition py_sum (l : list Q) : Q := fold_left Qplus l 0.

Fixpoint core_lines (i : nat) (cores : list Q) : trace :=
  match cores with
  | [] => []
  | core_usage :: rest =>
      Print ("  Core " ++ Py.digits (Z.of_nat (i + 1)) ++ ":   "
             ++ Py.format_f 1 core_usage ++ "%")
      :: core_lines (S i) rest
  end.

Definition cpu_section (w : world) : trace :=
  let cpu_per_core := cpu_percent_percpu w in
  ([ Print "--- CPU Usage ---"; Call ApiCpuPercentPerCpu ]
   ++ match cpu_per_core with
      | _ :: _ =>
          let cpu_overall :=
            py_sum cpu_per_core / inject_Z (Z.of_nat (List.length cpu_per_core)) in
          [ Print ("  Overall: " ++ Py.format_f 1 cpu_overall ++ "% (avg of cores)") ]
      | [] =>
          let cpu_overall := cpu_percent_total w in
          [ Call ApiCpuPercent;
            Print ("  Overall: " ++ Py.format_f 1 cpu_overall ++ "%") ]
      end
   ++ core_lines 0 cpu_per_core
   ++ [ Print "" ])%list.

(** [get_size_gb(n)] on an integer counter, with the default suffix. *)
Definition size_of (n : Z) : string := get_size_gb (inject_Z n) "B".

Definition memory_section (w : world) : trace :=
  let mem := virtual_memory w in
  let swap := swap_memory w in
  [ Print "--- Memory Usage (RAM) ---";
    Call ApiVirtualMemory;
    Print ("  Total:     " ++ size_of (mem_total mem));
    Print ("  Available: " ++ size_of (mem_available mem));
    Print ("  Used:      " ++ size_of (mem_used mem) ++ " ("
           ++ Py.format_f 1 (mem_percent mem) ++ "%)");
    Print ("  Free:      " ++ size_of (mem_free mem));
    Call ApiSwapMemory;
    Print ("  Swap Total: " ++ size_of (swap_total swap));
    Print ("  Swap Used:  " ++ size_of (swap_used swap) ++ " ("
           ++ Py.format_f 1 (swap_percent swap) ++ "%)");
    Print "" ].

(** The body of the [for disk_path in DISKS_TO_MONITOR] loop: the query,
    then either the three report lines or the handler's line. *)
Definition disk_report (w : world) (disk_path : string) : trace :=
  Call (ApiDiskUsage disk_path)
  :: match disk_usage w disk_path with
     | DiskOk disk =>
         [ Print ("  Disk (" ++ disk_path ++ "):");
           Print ("    Total:     " ++ size_of (disk_total disk));
           Print ("    Used:      " ++ size_of (disk_used disk) ++ " ("
                  ++ Py.format_f 1 (disk_percent disk) ++ "%)");
           Print ("    Free:      " ++ size_of (disk_free disk)) ]
     | DiskFileNotFound =>
         [ Print ("  Disk (" ++ disk_path ++ "): Not found or inaccessible.") ]
     | DiskException e =>
         [ Print ("  Disk (" ++ disk_path ++ "): Error - " ++ e) ]
     end.

Fixpoint disk_loop (w : world) (disks : list string) : trace :=
  match disks with
  | [] => []
  | disk_path :: rest => (disk_report w disk_path ++ disk_loop w rest)%list
  end.

Definition disk_section (DISKS_TO_MONITOR : list string) (w : world) : trace :=
  ([ Print "--- Disk Usage ---" ]
   ++ disk_loop w DISKS_TO_MONITOR
   ++ [ Print "" ])%list.

Definition network_section (g : globals) (w : world) : trace * globals :=
  let '((upload_speed, download_speed, total_sent, total_recv), g') :=
    get_network_speed g (net_io_counters w) (time_time w) in
  ([ Print "--- Network Activity ---";
     Call ApiNetIoCounters;
     Print ("  Total Sent:      " ++ size_of total_sent);
     Print ("  Total Received:  " ++ size_of total_recv);
     Print ("  Upload Speed:    " ++ get_size_gb upload_speed "B" ++ "/s");
     Print ("  Download Speed:  " ++ get_size_gb download_speed "B" ++ "/s");
     Print "" ],
   g').

(** *** Section 5: temperatures, primary source *)

(** [isinstance(e['current'], float) and not math.isnan(e['current'])]:
    every [current] is a float here, so only the NaN test remains. *)
Definition is_valid_entry (e : entry) : bool :=
  match current e with
  | Fin _ => true
  | NaN => false
  end.

Definition format_pyfloat (prec : nat) (x : pyfloat) : string :=
  match x with
  | Fin q => Py.format_f prec q
  | NaN => "nan"
  end.

Definition lhm_group_header (group : string) : string :=
  "  Sensor Group (LHM - " ++ group ++ "):".

Definition lhm_entry_line (e : entry) : event :=
  Print ("    " ++ label e ++ ": " ++ format_pyfloat 1 (current e) ++ degC).

(** The [for group, entries in lhm_temps.items()] loop, threading
    [data_printed_for_lhm]. *)
Fixpoint lhm_render_loop (items : dict (list entry)) (data_printed_for_lhm : bool)
    : trace * bool :=
  match items with
  | [] => ([], data_printed_for_lhm)
  | (group, entries) :: rest =>
      match entries with
      | [] => lhm_render_loop rest data_printed_for_lhm
      | _ =>
          let valid_entries_in_group := filter is_valid_entry entries in
          match valid_entries_in_group with
          | [] => lhm_render_loop rest data_printed_for_lhm
          | _ =>
              let '(tr, printed) := lhm_render_loop rest true in
              ((Print (lhm_group_header group)
                :: map lhm_entry_line valid_entries_in_group ++ tr)%list,
               printed)
          end
      end
  end.

Definition nonempty {A} (l : list A) : bool :=
  match l with [] => false | _ => true end.

(** [any(lhm_temps.values())] *)
Definition any_values {V} (d : dict (list V)) : bool :=
  existsb (fun kv => nonempty (snd kv)) d.

(** Lines 184-213: the trace and the final value of [lhm_reported_temps]. *)
Definition primary_phase (g : globals) (w : world) : trace * bool :=
  if libre_hw_monitor_available g then
    let '(lhm_temps, lhm_error_msg) := get_temperatures_lhm g (lhm_computer w) in
    let '(tr, lhm_reported_temps) :=
      if Py.truthy_str lhm_error_msg then
        ([ Print ("  LibreHardwareMonitor: Failed. Error: "
                  ++ Py.str_opt lhm_error_msg) ], false)
      else if negb (nonempty lhm_temps) || negb (any_values lhm_temps) then
        ([ Print "  LibreHardwareMonitor: No temperature sensors found or no data reported by sensors." ],
         false)
      else
        let '(tr, data_printed_for_lhm) := lhm_render_loop lhm_temps false in
        if data_printed_for_lhm then (tr, true)
        else
          ((tr ++ [ Print "  LibreHardwareMonitor: Sensors might be detected, but no valid temperature values available." ])%list,
           false)
    in
    ((Print "  Attempting to read temperatures using LibreHardwareMonitorLib..."
      :: Call ApiLhm :: tr)%list,
     lhm_reported_temps)
  else
    ([ Print ("  LibreHardwareMonitorLib not found or failed to load. Error: "
              ++ Py.str_opt (libre_hw_monitor_error g));
       Print "  (For temperature monitoring on Windows, download 'LibreHardwareMonitorLib.dll' and place it in the script's directory)." ],
     false).

(** *** Section 5: temperatures, fallback source *)

Definition threshold_line (title : string) (v : option Q) : trace :=
  match v with
  | Some q =>
      if Py.truthy_float v
      then [ Print ("      " ++ title ++ ": " ++ Py.format_f 1 q ++ degC) ]
      else []
  | None => []
  end.

Definition psutil_entry_lines (e : shwtemp) : trace :=
  let label := if String.eqb (temp_label e) ""
               then ""
               else " (" ++ temp_label e ++ ")" in
  (Print ("    " ++ Py.format_f 1 (temp_current e) ++ degC ++ label)
   :: threshold_line "High" (temp_high e)
   ++ threshold_line "Critical" (temp_critical e))%list.

Definition psutil_group_header (name : string) : string :=
  "  Sensor Group (psutil - " ++ name ++ "):".

(** The [for name, entries in psutil_temps_data.items()] loop, threading
    [psutil_data_found]. *)
Fixpoint psutil_render_loop (items : dict (list shwtemp)) (psutil_data_found : bool)
    : trace * bool :=
  match items with
  | [] => ([], psutil_data_found)
  | (name, entries) :: rest =>
      match entries with
      | [] => psutil_render_loop rest psutil_data_found
      | _ =>
          let '(tr, found) := psutil_render_loop rest true in
          ((Print (psutil_group_header name)
            :: flat_map psutil_entry_lines entries ++ tr)%list,
           found)
      end
  end.

(** Lines 216-242.  [Call ApiSensorsTemperatures] records that line 218
    was reached, whatever the platform answers. *)
Definition fallback_phase (w : world) : trace :=
  (Print (nl ++ "  Attempting fallback with psutil for temperatures...")
   :: Call ApiSensorsTemperatures
   :: match sensors_temperatures w with
      | TempsOk psutil_temps_data =>
          if negb (nonempty psutil_temps_data) then
            (Print "  psutil: Temperature sensors not found or not supported on this system."
             :: if negb (String.eqb (os_name w) "nt")
                then [ Print "  (On Linux, you might need 'lm-sensors' installed and configured.)" ]
                else [])
          else
            let '(tr, psutil_data_found) := psutil_render_loop psutil_temps_data false in
            if psutil_data_found then tr
            else tr ++ [ Print "  psutil: No specific temperature data available from detected sensors (sensors might be present but not reporting values)." ]
      | TempsAttributeError =>
          [ Print "  psutil: psutil.sensors_temperatures() not available on this platform/psutil version." ]
      | TempsException e =>
          [ Print ("  psutil: Could not retrieve temperatures: " ++ e) ]
      end)%list.

Definition temperature_section (g : globals) (w : world) : trace :=
  let '(tr, lhm_reported_temps) := primary_phase g w in
  ([ Print "--- System Temperatures ---" ]
   ++ tr
   ++ (if negb lhm_reported_temps then fallback_phase w else [])
   ++ [ Print "" ])%list.

(** ** display_system_stats and the main loop *)

Definition display_system_stats (g : globals) (DISKS_TO_MONITOR : list string)
    (w : world) : trace * globals :=
  let '(net, g') := network_section g w in
  ((header_section w
    ++ cpu_section w
    ++ memory_section w
    ++ disk_section DISKS_TO_MONITOR w
    ++ net
    ++ temperature_section g' w)%list,
   g').

(** The import block at the top of the module; [import_result] is [None]
    when the backend loaded and [Some e] when it raised [e].  The network
    baseline is sampled at import time. *)
Definition module_init (import_result : option string) (w : world) : globals :=
  {| libre_hw_monitor_available :=
       match import_result with None => true | Some _ => false end;
     libre_hw_monitor_error := import_result;
     last_net_io := net_io_counters w;
     last_time_net := time_time w |}.

(** The statements of [__main__] before the loop. *)
Definition startup (g : globals) (w : world) : trace * globals :=
  let '(_, g') := get_network_speed g (net_io_counters w) (time_time w) in
  ([ Call ApiCpuPercent; Call ApiNetIoCounters; Sleep (1 # 10) ], g').

(** One iteration of [while True]. *)
Definition cycle (g : globals) (DISKS_TO_MONITOR : list string) (w : world)
    : trace * globals :=
  let '(tr, g') := display_system_stats g DISKS_TO_MONITOR w in
  ((ClearScreen :: tr
    ++ [ Print (nl ++ "Updating in " ++ Py.digits UPDATE_INTERVAL ++ " seconds...");
         Sleep (inject_Z UPDATE_INTERVAL) ])%list,
   g').

(** The first [length ws] iterations of the loop, one world per
    iteration: the trace of each iteration and the globals at the end. *)
Fixpoint main_loop (g : globals) (DISKS_TO_MONITOR : list string) (ws : list world)
    : list trace * globals :=
  match ws with
  | [] => ([], g)
  | w :: rest =>
      let '(tr, g') := cycle g DISKS_TO_MONITOR w in
      let '(trs, g'') := main_loop g' DISKS_TO_MONITOR rest in
      (tr :: trs, g'')
  end.

(** The process: import, startup, then the loop. *)
Definition run (import_result : option string) (w_import w_start : world)
    (ws : list world) : list trace * globals :=
  let g0 := module_init import_result w_import in
  let '(_, g1) := startup g0 w_start in
  main_loop g1 (default_disks (os_name w_import)) ws.

(** * Vocabulary of the properties *)

(** ** Byte scaling *)

(** The factor of the unit at position [i] of [units]. *)
Definition pow1024 (i : nat) : Q := inject_Z (1024 ^ Z.of_nat i).

(** ** Network rate *)

(** The components of the tuple that get_network_speed returns. *)
Definition upload_of (r : Q * Q * Z * Z) : Q := fst (fst (fst r)).
Definition download_of (r : Q * Q * Z * Z) : Q := snd (fst (fst r)).
Definition total_sent_of (r : Q * Q * Z * Z) : Z := snd (fst r).
Definition total_recv_of (r : Q * Q * Z * Z) : Z := snd r.

(** Globals with a given network baseline. *)
Definition baseline (io : snetio) (t : Q) : globals :=
  {| libre_hw_monitor_available := true;
     libre_hw_monitor_error := None;
     last_net_io := io;
     last_time_net := t |}.

(** ** Observations on a trace *)

Definition is_fallback_call (e : event) : bool :=
  match e with Call ApiSensorsTemperatures => true | _ => false end.

Definition is_primary_call (e : event) : bool :=
  match e with Call ApiLhm => true | _ => false end.

(** A line that opens a rendered group of the primary source. *)
Definition is_primary_render (e : event) : bool :=
  match e with
  | Print line => String.prefix "  Sensor Group (LHM - " line
  | _ => false
  end.

Definition invokes_fallback (tr : trace) : bool := existsb is_fallback_call tr.
Definition invokes_primary (tr : trace) : bool := existsb is_primary_call tr.
Definition primary_rendered (tr : trace) : bool := existsb is_primary_render tr.

(** Some group of the readings holds a finite value. *)
Definition has_finite (d : dict (list entry)) : bool :=
  existsb (fun kv => existsb is_valid_entry (snd kv)) d.

Definition yields_finite_reading (d : dict (list entry)) : Prop :=
  exists group entries e q,
    In (group, entries) d /\ In e entries /\ current e = Fin q.

Definition only_nan_readings (d : dict (list entry)) : Prop :=
  forall group entries e,
    In (group, entries) d -> In e entries -> current e = NaN.

(** An event predicate that holds of no printed line. *)
Definition silent_on_prints (f : event -> bool) : Prop :=
  forall line, f (Print line) = false.

(** An event that is neither a query of a temperature source nor the
    header of a rendered primary group. *)
Definition not_thermal (e : event) : bool :=
  negb (is_fallback_call e || is_primary_call e || is_primary_render e).

(** ** Exceptions of the primary source *)

(** Some step that the [try] block performs on the backend raises. *)
Definition backend_raises (c : computer) : Prop :=
  Computer_raises c <> None \/
  Open_raises c <> None \/
  (exists h, In h (Hardware c) /\ Update_raises h <> None) \/
  Close_raises c <> None.

(** ** A sample machine *)

Module Sample.

Definition cpu_package : hardware_item :=
  {| Update_raises := None;
     Name := "AMD Ryzen 7";
     Sensors := [ {| SensorType := Load; SensorName := "CPU Total"; Value := Some (Fin 12) |};
                  {| SensorType := Temperature; SensorName := "Core (Tctl)"; Value := Some (Fin (1131 # 20)) |};
                  {| SensorType := Temperature; SensorName := "CCD1"; Value := None |} ] |}.

Definition gpu : hardware_item :=
  {| Update_raises := None;
     Name := "NVIDIA GeForce";
     Sensors := [ {| SensorType := Temperature; SensorName := "GPU Core"; Value := None |};
                  {| SensorType := Fan; SensorName := "GPU Fan"; Value := Some (Fin 900) |} ] |}.

Definition broken_gpu : hardware_item :=
  {| Update_raises := Some "device lost";
     Name := "Radeon";
     Sensors := [] |}.

Definition healthy : computer :=
  {| Computer_raises := None; Open_raises := None;
     Hardware := [cpu_package; gpu]; Close_raises := None |}.

Definition silent : computer :=
  {| Computer_raises := None; Open_raises := None;
     Hardware := [gpu]; Close_raises := None |}.

Definition failing : computer :=
  {| Computer_raises := None; Open_raises := None;
     Hardware := [cpu_package; broken_gpu]; Close_raises := None |}.

Definition disks : string -> disk_result :=
  fun path =>
    if String.eqb path "/" then
      DiskOk {| disk_total := 1024 ^ 4; disk_used := 1024 ^ 3;
                disk_free := 1024 ^ 4 - 1024 ^ 3; disk_percent := 1 # 10 |}
    else if String.eqb path "/root" then DiskException "Permission denied"
    else DiskFileNotFound.

Definition machine (c : computer) : world :=
  {| now_strftime := "2025-01-01 12:00:00";
     os_name := "posix";
     cpu_percent_percpu := [10; 25 # 2];
     cpu_percent_total := 11;
     virtual_memory := {| mem_total := 8 * 1024 ^ 3; mem_available := 1536;
                          mem_percent := 50; mem_used := 4 * 1024 ^ 3;
                          mem_free := 0 |};
     swap_memory := {| swap_total := 0; swap_used := 0; swap_percent := 0 |};
     disk_usage := disks;
     net_io_counters := {| bytes_sent := 3000; bytes_recv := 2500 |};
     time_time := 2;
     lhm_computer := c;
     sensors_temperatures :=
       TempsOk [ ("coretemp",
                  [ {| temp_label := "Package id 0"; temp_current := 45;
                       temp_high := Some 80; temp_critical := Some 100 |};
                    {| temp_label := ""; temp_current := 40;
                       temp_high := None; temp_critical := Some 0 |} ]) ] |}.

Definition loaded : globals := baseline {| bytes_sent := 1000; bytes_recv := 2000 |} 0.

Definition not_loaded : globals :=
  module_init (Some "No module named 'clr'") (machine healthy).

End Sample.

(** ** Further vocabulary *)

(** What get_temperatures_lhm does to the backend, in order: the calls
    it reaches.  A call that raises is the last one. *)
Inductive backend_op :=
| OpComputer
| OpOpen
| OpUpdate (name : string)
| OpClose.

(** The [Update()] calls of the outer loop, and whether the loop ran to
    its end. *)
Fixpoint hardware_ops (hw : list hardware_item) : list backend_op * bool :=
  match hw with
  | [] => ([], true)
  | hardware_item :: rest =>
      match Update_raises hardware_item with
      | Some _ => ([OpUpdate (Name hardware_item)], false)
      | None =>
          let '(ops, completed) := hardware_ops rest in
          (OpUpdate (Name hardware_item) :: ops, completed)
      end
  end.

Definition lhm_ops (g : globals) (c : computer) : list backend_op :=
  if negb (libre_hw_monitor_available g) then []
  else
    OpComputer
    :: match Computer_raises c with
       | Some _ => []
       | None =>
           OpOpen
           :: match Open_raises c with
              | Some _ => []
              | None =>
                  let '(ops, completed) := hardware_ops (Hardware c) in
                  (ops ++ if completed then [OpClose] else [])%list
              end
       end.

(** The temperature sensors of a hardware item, as entries. *)
Definition temperature_entries (h : hardware_item) : list entry :=
  map sensor_entry (filter (fun s => is_temperature (SensorType s)) (Sensors h)).

(** What the outer loop keeps true of [temps_data]. *)
Definition groups_from (all : list hardware_item) (d : dict (list entry)) : Prop :=
  NoDup (map fst d) /\
  forall group entries,
    In (group, entries) d ->
    entries <> [] /\
    exists h, In h all /\ Name h = group /\ entries = temperature_entries h.

(** The platform queries of a trace, in order. *)
Definition calls (tr : trace) : list api :=
  flat_map (fun e => match e with Call f => [f] | _ => [] end) tr.

(** What the primary render prints for one group. *)
Definition render_group (kv : string * list entry) : trace :=
  match filter is_valid_entry (snd kv) with
  | [] => []
  | valid => Print (lhm_group_header (fst kv)) :: map lhm_entry_line valid
  end.

(** What the fallback render prints for one group. *)
Definition psutil_group_lines (kv : string * list shwtemp) : trace :=
  match snd kv with
  | [] => []
  | entries => Print (psutil_group_header (fst kv)) :: flat_map psutil_entry_lines entries
  end.

(** The clock readings of the worlds go up strictly, starting above [t]. *)
Fixpoint increasing_from (t : Q) (ws : list world) : Prop :=
  match ws with
  | [] => True
  | w :: rest => t < time_time w /\ increasing_from (time_time w) rest
  end.

(** The world [w] at another reading of the clock and of the network
    counters. *)
Definition sampled_at (w : world) (io : snetio) (t : Q) : world :=
  {| now_strftime := now_strftime w;
     os_name := os_name w;
     cpu_percent_percpu := cpu_percent_percpu w;
     cpu_percent_total := cpu_percent_total w;
     virtual_memory := virtual_memory w;
     swap_memory := swap_memory w;
     disk_usage := disk_usage w;
     net_io_counters := io;
     time_time := t;
     lhm_computer := lhm_computer w;
     sensors_temperatures := sensors_temperatures w |}.

(** * Properties *)

(** ** Facts about the helpers *)

Lemma ltb_true_iff x y : Py.ltb x y = true <-> x < y.
Proof.
  unfold Py.ltb. rewrite negb_true_iff. split; intro H.
  - apply Qnot_le_lt. intro L. apply Qle_bool_iff in L. congruence.
  - destruct (Qle_bool y x) eqn:E; [|reflexivity].
    apply Qle_bool_iff in E. exfalso. apply (Qlt_not_le _ _ H E).
Qed.

Lemma ltb_false_iff x y : Py.ltb x y = false <-> y <= x.
Proof.
  unfold Py.ltb. rewrite negb_false_iff. apply Qle_bool_iff.
Qed.

(** ** Byte scaling: facts *)

Ltac inv_consts :=
  repeat match goal with
  | |- context [ Qinv ?c ] =>
      let c' := eval vm_compute in (Qinv c) in
      progress change (Qinv c) with c'
  | H : context [ Qinv ?c ] |- _ =>
      let c' := eval vm_compute in (Qinv c) in
      progress change (Qinv c) with c' in H
  end.

Ltac pow_consts :=
  repeat match goal with
  | |- context [ pow1024 ?i ] =>
      let c' := eval vm_compute in (pow1024 i) in
      progress change (pow1024 i) with c'
  | H : context [ pow1024 ?i ] |- _ =>
      let c' := eval vm_compute in (pow1024 i) in
      progress change (pow1024 i) with c' in H
  end.

(** Turn the tests of the loop into inequalities over [x] that [lra] reads. *)
Ltac q_linear :=
  repeat match goal with
  | H : Py.ltb _ _ = true |- _ => apply ltb_true_iff in H
  | H : Py.ltb _ _ = false |- _ => apply ltb_false_iff in H
  end;
  unfold factor, Qdiv in *; pow_consts; inv_consts.

(** C3: at 1024^6 the loop has divided five times when it reaches P,
    sees 1024, which is not below 1024, divides once more and falls
    through: the value printed under P is the input over 1024^6, not
    over 1024^5, and one exbibyte reads like one pebibyte. *)
Theorem C3_fall_through_divides_once_more :
  scale_bytes (inject_Z (1024 ^ 6))
  = (inject_Z (1024 ^ 6) / factor / factor / factor / factor / factor / factor, "P") /\
  fst (scale_bytes (inject_Z (1024 ^ 6))) == 1 /\
  ~ fst (scale_bytes (inject_Z (1024 ^ 6))) == inject_Z (1024 ^ 6) / pow1024 5 /\
  get_size_gb (inject_Z (1024 ^ 6)) "B" = "1.00PB" /\
  get_size_gb (inject_Z (1024 ^ 5)) "B" = "1.00PB".
Proof.
  split; [reflexivity|]. split; [reflexivity|]. split.
  - intro H. vm_compute in H. discriminate H.
  - split; vm_compute; reflexivity.
Qed.

(** C4: the three sample values of the formatter. *)
Theorem C4_get_size_gb_samples :
  get_size_gb 0 "B" = "0.00B" /\
  get_size_gb 1536 "B" = "1.50KB" /\
  get_size_gb (inject_Z (1024 ^ 4)) "B" = "1.00TB".
Proof. repeat split; vm_compute; reflexivity. Qed.

(** ** Network rate *)

Section NetworkRate.

Variable g : globals.
Variable current_net_io : snetio.
Variable current_time : Q.

Let elapsed_time := current_time - last_time_net g.
Let result := fst (get_network_speed g current_net_io current_time).
Let g' := snd (get_network_speed g current_net_io current_time).

Lemma get_network_speed_zero :
  elapsed_time == 0 ->
  get_network_speed g current_net_io current_time
  = ((0, 0, bytes_sent current_net_io, bytes_recv current_net_io), g).
Proof.
  intro H. unfold get_network_speed.
  apply Qeq_bool_iff in H. fold elapsed_time. rewrite H. reflexivity.
Qed.

Lemma get_network_speed_nonzero :
  ~ elapsed_time == 0 ->
  get_network_speed g current_net_io current_time
  = ((inject_Z (bytes_sent current_net_io - bytes_sent (last_net_io g)) / elapsed_time,
      inject_Z (bytes_recv current_net_io - bytes_recv (last_net_io g)) / elapsed_time,
      bytes_sent current_net_io, bytes_recv current_net_io),
     set_net_baseline g current_net_io current_time).
Proof.
  intro H. unfold get_network_speed. fold elapsed_time.
  destruct (Qeq_bool elapsed_time 0) eqn:E; [|reflexivity].
  apply Qeq_bool_iff in E. contradiction.
Qed.

(** The flag and the stored import error are not touched by the call. *)
Lemma get_network_speed_keeps_flag :
  libre_hw_monitor_available g' = libre_hw_monitor_available g /\
  libre_hw_monitor_error g' = libre_hw_monitor_error g.
Proof.
  unfold g', get_network_speed.
  destruct (Qeq_bool _ 0); split; reflexivity.
Qed.

End NetworkRate.

(** C1: from the baseline (sent 1000, recv 2000, t 0) the sample
    (sent 3000, recv 2500, t 2) gives 1000 B/s up and 250 B/s down; and
    whenever the elapsed time is zero the rates are 0.0 and 0.0 and the
    totals are the current counters. *)
Theorem C1_network_rate :
  (forall g,
     last_net_io g = {| bytes_sent := 1000; bytes_recv := 2000 |} ->
     last_time_net g == 0 ->
     let r := fst (get_network_speed g {| bytes_sent := 3000; bytes_recv := 2500 |} 2) in
     upload_of r == 1000 /\ download_of r == 250 /\
     total_sent_of r = 3000%Z /\ total_recv_of r = 2500%Z) /\
  (forall g current_net_io current_time,
     current_time - last_time_net g == 0 ->
     fst (get_network_speed g current_net_io current_time)
     = (0, 0, bytes_sent current_net_io, bytes_recv current_net_io)).
Proof.
  split.
  - intros g Hio Ht r. subst r.
    rewrite get_network_speed_nonzero by (rewrite Ht; discriminate).
    unfold upload_of, download_of, total_sent_of, total_recv_of; cbn [fst snd].
    rewrite Hio, Ht. cbn [bytes_sent bytes_recv].
    repeat split; reflexivity.
  - intros g io t H. rewrite get_network_speed_zero by exact H. reflexivity.
Qed.

Lemma C1_network_rate_witness :
  (let r := fst (get_network_speed (baseline {| bytes_sent := 1000; bytes_recv := 2000 |} 0)
                   {| bytes_sent := 3000; bytes_recv := 2500 |} 2) in
   upload_of r == 1000 /\ download_of r == 250 /\
   total_sent_of r = 3000%Z /\ total_recv_of r = 2500%Z) /\
  fst (get_network_speed (baseline {| bytes_sent := 1000; bytes_recv := 2000 |} 7)
         {| bytes_sent := 3000; bytes_recv := 2500 |} 7)
  = (0, 0, 3000%Z, 2500%Z).
Proof.
  split.
  - apply (proj1 C1_network_rate
             (baseline {| bytes_sent := 1000; bytes_recv := 2000 |} 0));
      reflexivity.
  - apply (proj2 C1_network_rate
             (baseline {| bytes_sent := 1000; bytes_recv := 2000 |} 7)
             {| bytes_sent := 3000; bytes_recv := 2500 |} 7).
    reflexivity.
Defined.

(** The rates of C1 as the script prints them. *)
Example network_rate_sample_printed :
  let r := fst (get_network_speed (baseline {| bytes_sent := 1000; bytes_recv := 2000 |} 0)
                  {| bytes_sent := 3000; bytes_recv := 2500 |} 2) in
  Py.format_f 1 (upload_of r) = "1000.0" /\ Py.format_f 1 (download_of r) = "250.0" /\
  get_size_gb (upload_of r) "B" = "1000.00B" /\ get_size_gb (download_of r) "B" = "250.00B".
Proof. vm_compute. repeat split; reflexivity. Qed.

(** C5: when the elapsed time is not zero, the call replaces the stored
    counters and timestamp by the current ones, so the rates of the next
    call are taken over the interval since this call only. *)
Theorem C5_baseline_overwritten (g : globals) (io1 : snetio) (t1 : Q) :
  ~ t1 - last_time_net g == 0 ->
  let g1 := snd (get_network_speed g io1 t1) in
  last_net_io g1 = io1 /\ last_time_net g1 = t1 /\
  forall (io2 : snetio) (t2 : Q),
    ~ t2 - t1 == 0 ->
    let r := fst (get_network_speed g1 io2 t2) in
    upload_of r = inject_Z (bytes_sent io2 - bytes_sent io1) / (t2 - t1) /\
    download_of r = inject_Z (bytes_recv io2 - bytes_recv io1) / (t2 - t1).
Proof.
  intros H g1. subst g1.
  rewrite get_network_speed_nonzero by exact H. cbn [snd].
  repeat split; try reflexivity.
  all: rewrite get_network_speed_nonzero by exact H0; reflexivity.
Qed.

Lemma C5_baseline_overwritten_witness :
  let g1 := snd (get_network_speed (baseline {| bytes_sent := 1000; bytes_recv := 2000 |} 0)
                   {| bytes_sent := 3000; bytes_recv := 2500 |} 2) in
  let r := fst (get_network_speed g1 {| bytes_sent := 4000; bytes_recv := 2600 |} 4) in
  last_net_io g1 = {| bytes_sent := 3000; bytes_recv := 2500 |} /\
  last_time_net g1 = 2 /\
  upload_of r = inject_Z (4000 - 3000) / (4 - 2) /\
  download_of r = inject_Z (2600 - 2500) / (4 - 2).
Proof.
  intros g1 r.
  destruct (C5_baseline_overwritten
              (baseline {| bytes_sent := 1000; bytes_recv := 2000 |} 0)
              {| bytes_sent := 3000; bytes_recv := 2500 |} 2) as [H1 [H2 H3]].
  - discriminate.
  - split; [exact H1 |]. split; [exact H2 |].
    apply (H3 {| bytes_sent := 4000; bytes_recv := 2600 |} 4). discriminate.
Defined.

(** C6: a counter that went down is not clamped: with a positive elapsed
    time the rate is the negative quotient (current - last) / elapsed. *)
Theorem C6_negative_delta_not_clamped (g : globals) (io : snetio) (t : Q) :
  0 < t - last_time_net g ->
  let r := fst (get_network_speed g io t) in
  ((bytes_sent io < bytes_sent (last_net_io g))%Z ->
   upload_of r = inject_Z (bytes_sent io - bytes_sent (last_net_io g)) / (t - last_time_net g)
   /\ upload_of r < 0) /\
  ((bytes_recv io < bytes_recv (last_net_io g))%Z ->
   download_of r = inject_Z (bytes_recv io - bytes_recv (last_net_io g)) / (t - last_time_net g)
   /\ download_of r < 0).
Proof.
  intros Hpos r. subst r.
  assert (Hnz : ~ t - last_time_net g == 0) by (intro E; rewrite E in Hpos; discriminate).
  rewrite get_network_speed_nonzero by exact Hnz.
  unfold upload_of, download_of; cbn [fst snd].
  assert (Hneg : forall d : Z, (d < 0)%Z -> inject_Z d / (t - last_time_net g) < 0).
  { intros d Hd. apply Qlt_shift_div_r; [exact Hpos|].
    rewrite Qmult_0_l. change 0 with (inject_Z 0). rewrite <- Zlt_Qlt. exact Hd. }
  split; intro Hlt; (split; [reflexivity | apply Hneg; lia]).
Qed.

Lemma C6_negative_delta_not_clamped_witness :
  let r := fst (get_network_speed (baseline {| bytes_sent := 5000; bytes_recv := 9000 |} 10)
                  {| bytes_sent := 1000; bytes_recv := 3000 |} 12) in
  upload_of r < 0 /\ download_of r < 0.
Proof.
  intro r.
  destruct (C6_negative_delta_not_clamped
              (baseline {| bytes_sent := 5000; bytes_recv := 9000 |} 10)
              {| bytes_sent := 1000; bytes_recv := 3000 |} 12) as [Hu Hd].
  - reflexivity.
  - split.
    + apply Hu. reflexivity.
    + apply Hd. reflexivity.
Defined.

Example negative_rate_printed :
  let r := fst (get_network_speed (baseline {| bytes_sent := 5000; bytes_recv := 9000 |} 10)
                  {| bytes_sent := 1000; bytes_recv := 3000 |} 12) in
  get_size_gb (upload_of r) "B" = "-2000.00B" /\ get_size_gb (download_of r) "B" = "-3000.00B".
Proof. vm_compute. split; reflexivity. Qed.

(** ** Traces: facts *)

Lemma has_finite_iff d : has_finite d = true <-> yields_finite_reading d.
Proof.
  unfold has_finite, yields_finite_reading. rewrite existsb_exists. split.
  - intros [[group entries] [Hin Hex]]. cbn [snd] in Hex.
    apply existsb_exists in Hex. destruct Hex as [e [He Hv]].
    unfold is_valid_entry in Hv. destruct (current e) as [q|] eqn:Hc; [|discriminate].
    exists group, entries, e, q. auto.
  - intros [group [entries [e [q [Hin [He Hc]]]]]].
    exists (group, entries). split; [exact Hin|]. cbn [snd].
    apply existsb_exists. exists e. split; [exact He|].
    unfold is_valid_entry. rewrite Hc. reflexivity.
Qed.

Lemma only_nan_not_finite d : only_nan_readings d -> has_finite d = false.
Proof.
  intro H. destruct (has_finite d) eqn:E; [|reflexivity].
  apply has_finite_iff in E. destruct E as [group [entries [e [q [Hin [He Hc]]]]]].
  rewrite (H _ _ _ Hin He) in Hc. discriminate.
Qed.

Lemma filter_valid_nil entries :
  filter is_valid_entry entries = [] <-> existsb is_valid_entry entries = false.
Proof.
  induction entries as [|e es IH]; cbn; [tauto|].
  destruct (is_valid_entry e); cbn; [split; discriminate | exact IH].
Qed.

(** *** The render loop of the primary source *)

Lemma lhm_render_loop_flag items b :
  snd (lhm_render_loop items b) = b || has_finite items.
Proof.
  revert b. induction items as [|[group entries] rest IH]; intro b; cbn.
  - rewrite orb_false_r. reflexivity.
  - destruct entries as [|e es]; [cbn; apply IH|].
    destruct (filter is_valid_entry (e :: es)) as [|v vs] eqn:F.
    + apply filter_valid_nil in F. rewrite F. cbn. apply IH.
    + assert (existsb is_valid_entry (e :: es) = true) as ->.
      { destruct (existsb is_valid_entry (e :: es)) eqn:X; [reflexivity|].
        apply filter_valid_nil in X. congruence. }
      specialize (IH true). destruct (lhm_render_loop rest true) as [tr printed].
      cbn in *. rewrite IH. rewrite orb_true_r. reflexivity.
Qed.

Lemma existsb_entry_lines f valid :
  silent_on_prints f -> existsb f (map lhm_entry_line valid) = false.
Proof.
  intro Hf. induction valid as [|e es IH]; cbn; [reflexivity|].
  unfold lhm_entry_line at 1. rewrite Hf. exact IH.
Qed.

Lemma lhm_render_loop_silent f items b :
  silent_on_prints f -> existsb f (fst (lhm_render_loop items b)) = false.
Proof.
  intro Hf. revert b. induction items as [|[group entries] rest IH]; intro b; cbn.
  - reflexivity.
  - destruct entries as [|e es]; [apply IH|].
    destruct (filter is_valid_entry (e :: es)) as [|v vs]; [apply IH|].
    specialize (IH true). destruct (lhm_render_loop rest true) as [tr printed].
    cbn [fst] in *. cbn [existsb]. rewrite Hf. cbn [orb].
    rewrite existsb_app, IH, existsb_entry_lines by exact Hf. reflexivity.
Qed.

Lemma prefix_nil s : String.prefix "" s = true.
Proof. destruct s; reflexivity. Qed.

Lemma lhm_group_header_is_render group :
  is_primary_render (Print (lhm_group_header group)) = true.
Proof. cbn. apply prefix_nil. Qed.

Lemma lhm_render_loop_rendered items b :
  primary_rendered (fst (lhm_render_loop items b)) = has_finite items.
Proof.
  unfold primary_rendered, has_finite.
  revert b. induction items as [|[group entries] rest IH]; intro b;
    cbn [lhm_render_loop existsb fst snd]; [reflexivity|].
  destruct entries as [|e es]; [apply IH|].
  destruct (filter is_valid_entry (e :: es)) as [|v vs] eqn:F.
  - apply filter_valid_nil in F. rewrite F. apply IH.
  - assert (existsb is_valid_entry (e :: es) = true) as ->.
    { destruct (existsb is_valid_entry (e :: es)) eqn:X; [reflexivity|].
      apply filter_valid_nil in X. congruence. }
    destruct (lhm_render_loop rest true) as [tr printed].
    cbn [fst existsb]. rewrite lhm_group_header_is_render. reflexivity.
Qed.

Lemma fallback_call_silent : silent_on_prints is_fallback_call.
Proof. intro line. reflexivity. Qed.

Lemma primary_call_silent : silent_on_prints is_primary_call.
Proof. intro line. reflexivity. Qed.

(** *** get_temperatures_lhm: the two shapes of its result *)

Lemma get_temperatures_lhm_cases g c :
  (libre_hw_monitor_available g = true /\
   exists temps, lhm_try c = inr temps /\ get_temperatures_lhm g c = (temps, None))
  \/
  (exists msg, get_temperatures_lhm g c = ([], Some msg) /\
               Py.truthy_str (Some msg) = true).
Proof.
  unfold get_temperatures_lhm.
  destruct (libre_hw_monitor_available g); cbn [negb].
  - destruct (lhm_try c) as [e | temps].
    + right. eexists. split; reflexivity.
    + left. split; [reflexivity|]. exists temps. split; reflexivity.
  - right. eexists. split; reflexivity.
Qed.

Lemma has_finite_any d :
  has_finite d = true -> nonempty d = true /\ any_values d = true.
Proof.
  intro H. apply existsb_exists in H. destruct H as [[group entries] [Hin Hex]].
  split.
  - destruct d; [destruct Hin | reflexivity].
  - apply existsb_exists. exists (group, entries). split; [exact Hin|].
    cbn [snd] in *. destruct entries; [discriminate Hex | reflexivity].
Qed.

(** *** The primary phase *)

Lemma primary_phase_reported g w :
  snd (primary_phase g w) = has_finite (fst (get_temperatures_lhm g (lhm_computer w))).
Proof.
  unfold primary_phase.
  destruct (get_temperatures_lhm_cases g (lhm_computer w))
    as [[Ha [temps [_ ->]]] | [msg [-> Ht]]].
  - rewrite Ha. cbn [Py.truthy_str fst].
    destruct (negb (nonempty temps) || negb (any_values temps)) eqn:C.
    + cbn [snd]. destruct (has_finite temps) eqn:F; [|reflexivity].
      apply has_finite_any in F. destruct F as [F1 F2].
      rewrite F1, F2 in C. discriminate C.
    + pose proof (lhm_render_loop_flag temps false) as L.
      destruct (lhm_render_loop temps false) as [tr printed]. cbn [snd] in L.
      subst printed. cbn [orb]. destruct (has_finite temps); reflexivity.
  - rewrite Ht. cbn [fst]. destruct (libre_hw_monitor_available g); reflexivity.
Qed.

Lemma primary_phase_rendered g w :
  primary_rendered (fst (primary_phase g w)) = snd (primary_phase g w).
Proof.
  unfold primary_phase.
  destruct (libre_hw_monitor_available g); [|reflexivity].
  destruct (get_temperatures_lhm g (lhm_computer w)) as [temps msg].
  destruct (Py.truthy_str msg); [reflexivity|].
  destruct (negb (nonempty temps) || negb (any_values temps)); [reflexivity|].
  pose proof (lhm_render_loop_flag temps false) as L.
  pose proof (lhm_render_loop_rendered temps false) as R.
  destruct (lhm_render_loop temps false) as [tr printed]. cbn [fst snd orb] in *.
  unfold primary_rendered in *.
  destruct printed; cbn [fst snd existsb is_primary_render orb].
  - change (String.prefix _ _) with false. cbn [orb]. congruence.
  - change (String.prefix _ _) with false. cbn [orb].
    rewrite existsb_app, R, <- L. reflexivity.
Qed.

Lemma primary_phase_silent f g w :
  silent_on_prints f ->
  existsb f (fst (primary_phase g w))
  = libre_hw_monitor_available g && f (Call ApiLhm).
Proof.
  intro Hf. unfold primary_phase.
  destruct (libre_hw_monitor_available g);
    [| cbn [fst existsb andb]; rewrite !Hf; reflexivity].
  destruct (get_temperatures_lhm g (lhm_computer w)) as [temps msg].
  destruct (Py.truthy_str msg);
    [cbn [fst existsb andb]; rewrite !Hf, !orb_false_r; reflexivity|].
  destruct (negb (nonempty temps) || negb (any_values temps));
    [cbn [fst existsb andb]; rewrite !Hf, !orb_false_r; reflexivity|].
  pose proof (lhm_render_loop_silent f temps false Hf) as S.
  destruct (lhm_render_loop temps false) as [tr printed]. cbn [fst] in S.
  destruct printed; cbn [fst existsb andb]; rewrite ?existsb_app, ?S, !Hf;
    cbn [existsb]; rewrite ?Hf, ?orb_false_r; reflexivity.
Qed.

(** *** The fallback phase *)

Lemma fallback_phase_invoked w : invokes_fallback (fallback_phase w) = true.
Proof. reflexivity. Qed.

Lemma threshold_line_no_render title v :
  primary_rendered (threshold_line title v) = false.
Proof.
  unfold threshold_line.
  destruct v as [q|]; [|reflexivity].
  destruct (Py.truthy_float (Some q)); reflexivity.
Qed.

Lemma psutil_entry_lines_no_render e :
  primary_rendered (psutil_entry_lines e) = false.
Proof.
  unfold psutil_entry_lines, primary_rendered.
  cbn [existsb is_primary_render]. change (String.prefix _ _) with false.
  cbn [orb]. rewrite existsb_app.
  fold (primary_rendered (threshold_line "High" (temp_high e))).
  fold (primary_rendered (threshold_line "Critical" (temp_critical e))).
  rewrite !threshold_line_no_render. reflexivity.
Qed.

Lemma psutil_render_loop_no_render items b :
  primary_rendered (fst (psutil_render_loop items b)) = false.
Proof.
  unfold primary_rendered.
  revert b. induction items as [|[name entries] rest IH]; intro b;
    cbn [psutil_render_loop fst existsb]; [reflexivity|].
  destruct entries as [|e es]; [apply IH|].
  specialize (IH true). destruct (psutil_render_loop rest true) as [tr found].
  cbn [fst existsb is_primary_render] in *.
  change (String.prefix _ (psutil_group_header name)) with false. cbn [orb].
  rewrite existsb_app, IH, orb_false_r.
  induction (e :: es) as [|x xs IHx]; [reflexivity|].
  cbn [flat_map]. rewrite existsb_app, IHx, orb_false_r.
  apply psutil_entry_lines_no_render.
Qed.

Lemma fallback_phase_no_render w : primary_rendered (fallback_phase w) = false.
Proof.
  unfold fallback_phase, primary_rendered.
  cbn [existsb is_primary_render]. change (String.prefix _ (nl ++ _)) with false.
  cbn [orb].
  destruct (sensors_temperatures w) as [d | | e]; [|reflexivity|reflexivity].
  destruct (negb (nonempty d)).
  - destruct (negb (os_name w =? "nt")%string); reflexivity.
  - pose proof (psutil_render_loop_no_render d false) as L.
    unfold primary_rendered in L.
    destruct (psutil_render_loop d false) as [tr found]. cbn [fst] in L.
    destruct found; [exact L|].
    rewrite existsb_app, L. reflexivity.
Qed.

Lemma psutil_render_loop_silent f items b :
  silent_on_prints f -> existsb f (fst (psutil_render_loop items b)) = false.
Proof.
  intro Hf. revert b. induction items as [|[name entries] rest IH]; intro b;
    cbn [psutil_render_loop fst existsb]; [reflexivity|].
  destruct entries as [|e es]; [apply IH|].
  specialize (IH true). destruct (psutil_render_loop rest true) as [tr found].
  cbn [fst existsb] in *. rewrite Hf, existsb_app, IH, orb_false_r. cbn [orb].
  induction (e :: es) as [|x xs IHx]; [reflexivity|].
  cbn [flat_map]. rewrite existsb_app, IHx, orb_false_r.
  unfold psutil_entry_lines, threshold_line.
  destruct (temp_high x) as [h|]; destruct (temp_critical x) as [c|];
    repeat match goal with |- context [Py.truthy_float ?v] => destruct (Py.truthy_float v) end;
    cbn [existsb app]; rewrite ?Hf; reflexivity.
Qed.

Lemma fallback_phase_no_primary_call w : invokes_primary (fallback_phase w) = false.
Proof.
  unfold fallback_phase, invokes_primary.
  cbn [existsb is_primary_call orb].
  destruct (sensors_temperatures w) as [d | | e]; [|reflexivity|reflexivity].
  destruct (negb (nonempty d)).
  - destruct (negb (os_name w =? "nt")%string); reflexivity.
  - pose proof (psutil_render_loop_silent is_primary_call d false primary_call_silent) as L.
    destruct (psutil_render_loop d false) as [tr found]. cbn [fst] in L.
    destruct found; [exact L|].
    rewrite existsb_app, L. reflexivity.
Qed.

(** *** The temperature section as a whole *)

Lemma temperature_section_fallback g w :
  invokes_fallback (temperature_section g w) = negb (snd (primary_phase g w)).
Proof.
  unfold temperature_section, invokes_fallback.
  pose proof (primary_phase_silent is_fallback_call g w fallback_call_silent) as P.
  destruct (primary_phase g w) as [tr reported]. cbn [fst snd] in *.
  cbn [app existsb is_fallback_call orb]. rewrite !existsb_app, P.
  cbn [is_fallback_call]. rewrite andb_false_r. cbn [orb].
  destruct reported; cbn [negb]; [reflexivity|].
  fold (invokes_fallback (fallback_phase w)). rewrite fallback_phase_invoked.
  reflexivity.
Qed.

Lemma temperature_section_rendered g w :
  primary_rendered (temperature_section g w) = snd (primary_phase g w).
Proof.
  unfold temperature_section.
  pose proof (primary_phase_rendered g w) as P.
  destruct (primary_phase g w) as [tr reported]. cbn [fst snd] in *.
  unfold primary_rendered in *.
  cbn [app existsb is_primary_render]. change (String.prefix _ _) with false.
  cbn [orb]. rewrite !existsb_app, P.
  destruct reported; cbn [negb]; [reflexivity|].
  fold (primary_rendered (fallback_phase w)). rewrite fallback_phase_no_render.
  reflexivity.
Qed.

Lemma temperature_section_primary_call g w :
  invokes_primary (temperature_section g w) = libre_hw_monitor_available g.
Proof.
  unfold temperature_section, invokes_primary.
  pose proof (primary_phase_silent is_primary_call g w primary_call_silent) as P.
  destruct (primary_phase g w) as [tr reported]. cbn [fst snd] in *.
  cbn [app existsb is_primary_call orb]. rewrite !existsb_app, P.
  cbn [is_primary_call existsb]. rewrite andb_true_r, !orb_false_r.
  destruct reported; cbn [negb]; [rewrite orb_false_r; reflexivity|].
  fold (invokes_primary (fallback_phase w)). rewrite fallback_phase_no_primary_call.
  rewrite orb_false_r. reflexivity.
Qed.

(** *** The sections before the temperatures *)

Lemma not_thermal_existsb tr :
  forallb not_thermal tr = true ->
  invokes_fallback tr = false /\ invokes_primary tr = false /\
  primary_rendered tr = false.
Proof.
  unfold invokes_fallback, invokes_primary, primary_rendered.
  induction tr as [|e es IH]; cbn [forallb existsb]; [auto|].
  intro H. apply andb_true_iff in H. destruct H as [He Hes].
  destruct (IH Hes) as [-> [-> ->]].
  unfold not_thermal in He. apply negb_true_iff in He.
  apply orb_false_iff in He. destruct He as [He ->].
  apply orb_false_iff in He. destruct He as [-> ->]. auto.
Qed.

Lemma header_section_not_thermal w : forallb not_thermal (header_section w) = true.
Proof. reflexivity. Qed.

Lemma core_lines_not_thermal i cores : forallb not_thermal (core_lines i cores) = true.
Proof.
  revert i. induction cores as [|c cs IH]; intro i; [reflexivity|].
  cbn [core_lines forallb]. rewrite IH. reflexivity.
Qed.

Lemma cpu_section_not_thermal w : forallb not_thermal (cpu_section w) = true.
Proof.
  unfold cpu_section.
  destruct (cpu_percent_percpu w) as [|c cs];
    rewrite !forallb_app, core_lines_not_thermal; reflexivity.
Qed.

Lemma memory_section_not_thermal w : forallb not_thermal (memory_section w) = true.
Proof. reflexivity. Qed.

Lemma disk_report_not_thermal w p : forallb not_thermal (disk_report w p) = true.
Proof. unfold disk_report. destruct (disk_usage w p); reflexivity. Qed.

Lemma disk_loop_not_thermal w disks : forallb not_thermal (disk_loop w disks) = true.
Proof.
  induction disks as [|p ps IH]; [reflexivity|].
  cbn [disk_loop]. rewrite forallb_app, disk_report_not_thermal, IH. reflexivity.
Qed.

Lemma disk_section_not_thermal disks w :
  forallb not_thermal (disk_section disks w) = true.
Proof.
  unfold disk_section. rewrite !forallb_app, disk_loop_not_thermal. reflexivity.
Qed.

Lemma network_section_not_thermal g w :
  forallb not_thermal (fst (network_section g w)) = true.
Proof.
  unfold network_section.
  destruct (get_network_speed g (net_io_counters w) (time_time w))
    as [[[[up down] sent] recv] g'].
  reflexivity.
Qed.

Lemma network_section_keeps_flag g w :
  libre_hw_monitor_available (snd (network_section g w)) = libre_hw_monitor_available g /\
  libre_hw_monitor_error (snd (network_section g w)) = libre_hw_monitor_error g.
Proof.
  unfold network_section.
  pose proof (get_network_speed_keeps_flag g (net_io_counters w) (time_time w)) as K.
  destruct (get_network_speed g (net_io_counters w) (time_time w))
    as [[[[up down] sent] recv] g'].
  exact K.
Qed.

(** get_temperatures_lhm reads the globals only through the flag and
    the stored import error. *)
Lemma get_temperatures_lhm_ext g1 g2 c :
  libre_hw_monitor_available g1 = libre_hw_monitor_available g2 ->
  libre_hw_monitor_error g1 = libre_hw_monitor_error g2 ->
  get_temperatures_lhm g1 c = get_temperatures_lhm g2 c.
Proof. unfold get_temperatures_lhm. intros -> ->. reflexivity. Qed.

(** *** One cycle *)

Lemma cycle_keeps_flag g disks w :
  libre_hw_monitor_available (snd (cycle g disks w)) = libre_hw_monitor_available g /\
  libre_hw_monitor_error (snd (cycle g disks w)) = libre_hw_monitor_error g.
Proof.
  unfold cycle, display_system_stats.
  pose proof (network_section_keeps_flag g w) as K.
  destruct (network_section g w) as [net g']. exact K.
Qed.

(** What a cycle does about temperatures is decided by the readings the
    primary source gives, and by the flag. *)
Lemma cycle_thermal g disks w :
  let tr := fst (cycle g disks w) in
  let reported := has_finite (fst (get_temperatures_lhm g (lhm_computer w))) in
  invokes_fallback tr = negb reported /\
  primary_rendered tr = reported /\
  invokes_primary tr = libre_hw_monitor_available g.
Proof.
  unfold cycle, display_system_stats.
  pose proof (network_section_keeps_flag g w) as [Ka Ke].
  pose proof (network_section_not_thermal g w) as N.
  destruct (network_section g w) as [net g']. cbn [fst snd] in *.
  rewrite (get_temperatures_lhm_ext g g') by congruence.
  rewrite <- primary_phase_reported.
  rewrite <- Ka.
  destruct (not_thermal_existsb _ (header_section_not_thermal w)) as [H1 [H2 H3]].
  destruct (not_thermal_existsb _ (cpu_section_not_thermal w)) as [C1 [C2 C3]].
  destruct (not_thermal_existsb _ (memory_section_not_thermal w)) as [M1 [M2 M3]].
  destruct (not_thermal_existsb _ (disk_section_not_thermal disks w)) as [D1 [D2 D3]].
  destruct (not_thermal_existsb _ N) as [N1 [N2 N3]].
  pose proof (temperature_section_fallback g' w) as T1.
  pose proof (temperature_section_primary_call g' w) as T2.
  pose proof (temperature_section_rendered g' w) as T3.
  unfold invokes_fallback, invokes_primary, primary_rendered in *.
  cbn [existsb is_fallback_call is_primary_call is_primary_render orb].
  rewrite !existsb_app.
  rewrite H1, H2, H3, C1, C2, C3, M1, M2, M3, D1, D2, D3, N1, N2, N3, T1, T2, T3.
  cbn [existsb orb is_fallback_call is_primary_call is_primary_render].
  change (String.prefix _ (nl ++ _)) with false.
  rewrite !orb_false_r. auto.
Qed.

(** ** Temperature sources *)

Lemma In_fallback_call tr :
  In (Call ApiSensorsTemperatures) tr <-> invokes_fallback tr = true.
Proof.
  unfold invokes_fallback. rewrite existsb_exists. split.
  - intro H. exists (Call ApiSensorsTemperatures). split; [exact H | reflexivity].
  - intros [e [Hin He]]. destruct e as [line | [] | | s]; try discriminate He. exact Hin.
Qed.

Lemma In_primary_call tr :
  In (Call ApiLhm) tr <-> invokes_primary tr = true.
Proof.
  unfold invokes_primary. rewrite existsb_exists. split.
  - intro H. exists (Call ApiLhm). split; [exact H | reflexivity].
  - intros [e [Hin He]]. destruct e as [line | [] | | s]; try discriminate He. exact Hin.
Qed.

Lemma In_group_header_rendered tr group :
  In (Print (lhm_group_header group)) tr -> primary_rendered tr = true.
Proof.
  intro H. apply existsb_exists. exists (Print (lhm_group_header group)).
  split; [exact H | apply lhm_group_header_is_render].
Qed.

(** C2: in every cycle, a finite reading from the primary source keeps
    the fallback source from being queried; readings that are all NaN
    make the cycle query it; and no cycle both renders a primary group
    and queries the fallback source. *)
Theorem C2_fallback_only_without_finite_reading
    (g : globals) (DISKS_TO_MONITOR : list string) (w : world) :
  let tr := fst (cycle g DISKS_TO_MONITOR w) in
  let lhm_temps := fst (get_temperatures_lhm g (lhm_computer w)) in
  (yields_finite_reading lhm_temps -> ~ In (Call ApiSensorsTemperatures) tr) /\
  (only_nan_readings lhm_temps -> In (Call ApiSensorsTemperatures) tr) /\
  ~ ((exists group, In (Print (lhm_group_header group)) tr) /\
     In (Call ApiSensorsTemperatures) tr).
Proof.
  intros tr lhm_temps.
  destruct (cycle_thermal g DISKS_TO_MONITOR w) as [Hf [Hr _]].
  fold tr lhm_temps in Hf, Hr.
  repeat split.
  - intros Hy Hin. apply has_finite_iff in Hy. apply In_fallback_call in Hin.
    rewrite Hf, Hy in Hin. discriminate Hin.
  - intro Hn. apply In_fallback_call. rewrite Hf, (only_nan_not_finite _ Hn).
    reflexivity.
  - intros [[group Hg] Hin]. apply In_group_header_rendered in Hg.
    apply In_fallback_call in Hin. rewrite Hr in Hg. rewrite Hf, Hg in Hin.
    discriminate Hin.
Qed.

Lemma C2_fallback_only_without_finite_reading_witness :
  ~ In (Call ApiSensorsTemperatures)
       (fst (cycle Sample.loaded ["/"] (Sample.machine Sample.healthy)))
  /\ In (Call ApiSensorsTemperatures)
        (fst (cycle Sample.loaded ["/"] (Sample.machine Sample.silent))).
Proof.
  split.
  - apply (proj1 (C2_fallback_only_without_finite_reading
                    Sample.loaded ["/"] (Sample.machine Sample.healthy))).
    exists "AMD Ryzen 7",
           [ {| label := "Core (Tctl)"; current := Fin (1131 # 20) |};
             {| label := "CCD1"; current := NaN |} ],
           {| label := "Core (Tctl)"; current := Fin (1131 # 20) |},
           (1131 # 20).
    repeat split; left; reflexivity.
  - apply (proj1 (proj2 (C2_fallback_only_without_finite_reading
                           Sample.loaded ["/"] (Sample.machine Sample.silent)))).
    intros group entries e Hin He.
    destruct Hin as [Hin | []]. inversion Hin; subst.
    destruct He as [<- | []]. reflexivity.
Defined.

(** ** The availability flag *)

Lemma main_loop_keeps_flag g disks ws :
  libre_hw_monitor_available (snd (main_loop g disks ws)) = libre_hw_monitor_available g.
Proof.
  revert g. induction ws as [|w rest IH]; intro g; cbn [main_loop]; [reflexivity|].
  pose proof (cycle_keeps_flag g disks w) as [K _].
  destruct (cycle g disks w) as [tr g']. cbn [snd] in K.
  specialize (IH g'). destruct (main_loop g' disks rest) as [trs g''].
  cbn [snd] in *. congruence.
Qed.

Lemma main_loop_length g disks ws :
  List.length (fst (main_loop g disks ws)) = List.length ws.
Proof.
  revert g. induction ws as [|w rest IH]; intro g; cbn [main_loop]; [reflexivity|].
  destruct (cycle g disks w) as [tr g'].
  specialize (IH g'). destruct (main_loop g' disks rest) as [trs g''].
  cbn [fst List.length] in *. congruence.
Qed.

Lemma main_loop_unavailable g disks ws :
  libre_hw_monitor_available g = false ->
  Forall (fun tr => ~ In (Call ApiLhm) tr /\ In (Call ApiSensorsTemperatures) tr)
         (fst (main_loop g disks ws)).
Proof.
  revert g. induction ws as [|w rest IH]; intros g Hg; cbn [main_loop]; [constructor|].
  pose proof (cycle_keeps_flag g disks w) as [K _].
  destruct (cycle_thermal g disks w) as [Hf [_ Hp]].
  destruct (cycle g disks w) as [tr g']. cbn [fst snd] in *.
  specialize (IH g'). destruct (main_loop g' disks rest) as [trs g''].
  cbn [fst] in *. constructor; [| apply IH; congruence].
  split.
  - rewrite In_primary_call, Hp, Hg. discriminate.
  - rewrite In_fallback_call, Hf.
    unfold get_temperatures_lhm. rewrite Hg. reflexivity.
Qed.

(** C7: the flag gets its value from the import at process start and no
    cycle changes it; when the import failed, every cycle of the loop
    leaves the primary source alone and queries the fallback source. *)
Theorem C7_flag_fixed_at_startup
    (import_result : option string) (w_import w_start : world) (ws : list world) :
  let g0 := module_init import_result w_import in
  let traces := fst (run import_result w_import w_start ws) in
  let g_end := snd (run import_result w_import w_start ws) in
  (libre_hw_monitor_available g0 = true <-> import_result = None) /\
  libre_hw_monitor_available g_end = libre_hw_monitor_available g0 /\
  List.length traces = List.length ws /\
  (forall e, import_result = Some e ->
     Forall (fun tr => ~ In (Call ApiLhm) tr /\ In (Call ApiSensorsTemperatures) tr)
            traces).
Proof.
  intros g0 traces g_end. subst traces g_end. unfold run. fold g0.
  unfold startup.
  pose proof (get_network_speed_keeps_flag g0 (net_io_counters w_start) (time_time w_start))
    as [K _].
  destruct (get_network_speed g0 (net_io_counters w_start) (time_time w_start))
    as [r g1]. cbn [snd] in K.
  split; [| split; [| split]].
  - subst g0. destruct import_result; cbn; split; congruence.
  - rewrite main_loop_keeps_flag. exact K.
  - apply main_loop_length.
  - intros e He. apply main_loop_unavailable. rewrite K. subst g0.
    rewrite He. reflexivity.
Qed.

Lemma C7_flag_fixed_at_startup_witness :
  Forall (fun tr => ~ In (Call ApiLhm) tr /\ In (Call ApiSensorsTemperatures) tr)
         (fst (run (Some "No module named 'clr'")
                   (Sample.machine Sample.healthy) (Sample.machine Sample.healthy)
                   [Sample.machine Sample.healthy; Sample.machine Sample.silent])).
Proof.
  apply (proj2 (proj2 (proj2
           (C7_flag_fixed_at_startup (Some "No module named 'clr'")
              (Sample.machine Sample.healthy) (Sample.machine Sample.healthy)
              [Sample.machine Sample.healthy; Sample.machine Sample.silent])))
         "No module named 'clr'").
  reflexivity.
Defined.

(** ** Disk paths *)

Lemma disk_loop_app w l1 l2 :
  disk_loop w (l1 ++ l2) = (disk_loop w l1 ++ disk_loop w l2)%list.
Proof.
  induction l1 as [|p ps IH]; [reflexivity|].
  cbn [app disk_loop]. rewrite IH, app_assoc. reflexivity.
Qed.

Lemma last_two {A} (l : list A) (a b d : A) : last (l ++ [a; b]) d = b.
Proof.
  induction l as [|x xs IH]; [reflexivity|].
  cbn [app]. destruct (xs ++ [a; b])%list eqn:E; [destruct xs; discriminate E|].
  cbn [last]. exact IH.
Qed.

(** The block of one configured path, between what comes before it and
    what comes after it in the cycle. *)
Lemma cycle_disk_block g disks w q :
  In q disks ->
  exists pre post,
    fst (cycle g disks w) = (pre ++ disk_report w q ++ post)%list /\
    In (Print "--- Network Activity ---") post /\
    In (Print "--- System Temperatures ---") post /\
    last post ClearScreen = Sleep (inject_Z UPDATE_INTERVAL).
Proof.
  intro Hq. apply in_split in Hq. destruct Hq as [l1 [l2 Hd]].
  unfold cycle, display_system_stats, disk_section.
  assert (Hnet : exists rest, fst (network_section g w)
                              = Print "--- Network Activity ---" :: rest).
  { unfold network_section.
    destruct (get_network_speed g (net_io_counters w) (time_time w))
      as [[[[up down] sent] recv] g']. eexists. reflexivity. }
  assert (Htemp : forall g', exists rest, temperature_section g' w
                              = Print "--- System Temperatures ---" :: rest).
  { intro g'. unfold temperature_section.
    destruct (primary_phase g' w) as [t r]. eexists. reflexivity. }
  destruct (network_section g w) as [net g']. cbn [fst] in *.
  destruct Hnet as [nrest ->]. destruct (Htemp g') as [trest ->].
  rewrite Hd, disk_loop_app. cbn [disk_loop].
  exists (ClearScreen :: header_section w ++ cpu_section w ++ memory_section w
          ++ [Print "--- Disk Usage ---"] ++ disk_loop w l1)%list.
  exists (disk_loop w l2 ++ [Print ""]
          ++ (Print "--- Network Activity ---" :: nrest)
          ++ (Print "--- System Temperatures ---" :: trest)
          ++ [Print (nl ++ "Updating in " ++ Py.digits UPDATE_INTERVAL ++ " seconds...");
              Sleep (inject_Z UPDATE_INTERVAL)])%list.
  split; [| split; [| split]].
  - cbn [app]. repeat (rewrite <- app_assoc || rewrite <- app_comm_cons).
    cbn [app]. reflexivity.
  - apply in_or_app. right. cbn [app]. right. left. reflexivity.
  - apply in_or_app. right. cbn [app]. right. right.
    apply in_or_app. right. left. reflexivity.
  - rewrite !app_assoc. apply last_two.
Qed.

(** C8: in the trace of a cycle every configured path has its own
    block, whatever the other paths did: the query, followed by the
    line saying the path was not found, or by the line with the error
    text, or by the header and the total, used and free lines; and after
    each block the cycle goes on to the network and temperature sections
    and ends with the sleep. *)
Theorem C8_disk_error_is_per_path
    (g : globals) (DISKS_TO_MONITOR : list string) (w : world) :
  let tr := fst (cycle g DISKS_TO_MONITOR w) in
  (forall p,
     In p DISKS_TO_MONITOR ->
     disk_usage w p = DiskFileNotFound ->
     exists pre post,
       tr = (pre
             ++ [ Call (ApiDiskUsage p);
                  Print ("  Disk (" ++ p ++ "): Not found or inaccessible.") ]
             ++ post)%list /\
       In (Print "--- Network Activity ---") post /\
       In (Print "--- System Temperatures ---") post /\
       last post ClearScreen = Sleep (inject_Z UPDATE_INTERVAL)) /\
  (forall p e,
     In p DISKS_TO_MONITOR ->
     disk_usage w p = DiskException e ->
     exists pre post,
       tr = (pre
             ++ [ Call (ApiDiskUsage p);
                  Print ("  Disk (" ++ p ++ "): Error - " ++ e) ]
             ++ post)%list /\
       In (Print "--- Network Activity ---") post /\
       In (Print "--- System Temperatures ---") post /\
       last post ClearScreen = Sleep (inject_Z UPDATE_INTERVAL)) /\
  (forall q disk,
     In q DISKS_TO_MONITOR ->
     disk_usage w q = DiskOk disk ->
     exists pre post,
       tr = (pre
             ++ [ Call (ApiDiskUsage q);
                  Print ("  Disk (" ++ q ++ "):");
                  Print ("    Total:     "
                         ++ get_size_gb (inject_Z (disk_total disk)) "B");
                  Print ("    Used:      "
                         ++ get_size_gb (inject_Z (disk_used disk)) "B"
                         ++ " (" ++ Py.format_f 1 (disk_percent disk) ++ "%)");
                  Print ("    Free:      "
                         ++ get_size_gb (inject_Z (disk_free disk)) "B") ]
             ++ post)%list /\
       In (Print "--- Network Activity ---") post /\
       In (Print "--- System Temperatures ---") post /\
       last post ClearScreen = Sleep (inject_Z UPDATE_INTERVAL)).
Proof.
  intro tr. subst tr. split; [| split].
  - intros p Hp Hr.
    destruct (cycle_disk_block g DISKS_TO_MONITOR w p Hp) as [pre [post [E Hpost]]].
    exists pre, post. split; [| exact Hpost].
    rewrite E. unfold disk_report. rewrite Hr. reflexivity.
  - intros p e Hp Hr.
    destruct (cycle_disk_block g DISKS_TO_MONITOR w p Hp) as [pre [post [E Hpost]]].
    exists pre, post. split; [| exact Hpost].
    rewrite E. unfold disk_report. rewrite Hr. reflexivity.
  - intros q disk Hq Hr.
    destruct (cycle_disk_block g DISKS_TO_MONITOR w q Hq) as [pre [post [E Hpost]]].
    exists pre, post. split; [| exact Hpost].
    rewrite E. unfold disk_report. rewrite Hr. reflexivity.
Qed.

Lemma C8_disk_error_is_per_path_witness :
  let w := Sample.machine Sample.healthy in
  let tr := fst (cycle Sample.loaded ["/mnt/data"; "/"; "/root"] w) in
  (exists pre post,
     tr = (pre
           ++ [ Call (ApiDiskUsage "/mnt/data");
                Print "  Disk (/mnt/data): Not found or inaccessible." ]
           ++ post)%list /\
     In (Print "--- Network Activity ---") post /\
     In (Print "--- System Temperatures ---") post /\
     last post ClearScreen = Sleep (inject_Z UPDATE_INTERVAL)) /\
  (exists pre post,
     tr = (pre
           ++ [ Call (ApiDiskUsage "/root");
                Print "  Disk (/root): Error - Permission denied" ]
           ++ post)%list /\
     In (Print "--- Network Activity ---") post /\
     In (Print "--- System Temperatures ---") post /\
     last post ClearScreen = Sleep (inject_Z UPDATE_INTERVAL)) /\
  (exists pre post,
     tr = (pre
           ++ [ Call (ApiDiskUsage "/");
                Print "  Disk (/):";
                Print "    Total:     1.00TB";
                Print "    Used:      1.00GB (0.1%)";
                Print "    Free:      1023.00GB" ]
           ++ post)%list /\
     In (Print "--- Network Activity ---") post /\
     In (Print "--- System Temperatures ---") post /\
     last post ClearScreen = Sleep (inject_Z UPDATE_INTERVAL)).
Proof.
  intros w tr.
  destruct (C8_disk_error_is_per_path Sample.loaded ["/mnt/data"; "/"; "/root"] w)
    as [H1 [H2 H3]].
  split; [| split].
  - apply (H1 "/mnt/data"); [left; reflexivity | reflexivity].
  - apply (H2 "/root" "Permission denied"); [right; right; left; reflexivity | reflexivity].
  - apply (H3 "/" {| disk_total := 1024 ^ 4; disk_used := 1024 ^ 3;
                     disk_free := 1024 ^ 4 - 1024 ^ 3; disk_percent := 1 # 10 |});
      [right; left; reflexivity | reflexivity].
Defined.

(** ** The collection step of the primary source *)

Lemma collect_group_from sensors acc :
  fold_left
    (fun current_group_temps s =>
       if is_temperature (SensorType s)
       then (current_group_temps ++ [sensor_entry s])%list
       else current_group_temps)
    sensors acc
  = (acc ++ map sensor_entry
              (filter (fun s => is_temperature (SensorType s)) sensors))%list.
Proof.
  revert acc. induction sensors as [|s ss IH]; intro acc; cbn [fold_left filter map].
  - rewrite app_nil_r. reflexivity.
  - rewrite IH. destruct (is_temperature (SensorType s)); [|reflexivity].
    cbn [map]. rewrite <- app_assoc. reflexivity.
Qed.

(** The loop keeps exactly the temperature sensors, in order. *)
Lemma collect_group_spec sensors :
  collect_group sensors
  = map sensor_entry (filter (fun s => is_temperature (SensorType s)) sensors).
Proof. unfold collect_group. rewrite collect_group_from. reflexivity. Qed.

Lemma dict_get_set_same {V} (d : dict V) k v : dict_get (dict_set d k v) k = Some v.
Proof.
  induction d as [|[k' v'] rest IH]; cbn [dict_set dict_get].
  - rewrite String.eqb_refl. reflexivity.
  - destruct (String.eqb k' k) eqn:E; cbn [dict_get]; rewrite E; [reflexivity | exact IH].
Qed.

Lemma dict_get_set_other {V} (d : dict V) k k' v :
  k <> k' -> dict_get (dict_set d k v) k' = dict_get d k'.
Proof.
  intro Hne. induction d as [|[k0 v0] rest IH]; cbn [dict_set dict_get].
  - destruct (String.eqb k k') eqn:E; [|reflexivity].
    apply String.eqb_eq in E. contradiction.
  - destruct (String.eqb k0 k) eqn:E; cbn [dict_get].
    + apply String.eqb_eq in E. subst k0.
      destruct (String.eqb k k') eqn:E'; [|reflexivity].
      apply String.eqb_eq in E'. contradiction.
    + rewrite IH. reflexivity.
Qed.

Lemma hardware_loop_other hw d temps k :
  hardware_loop hw d = inr temps ->
  ~ In k (map Name hw) ->
  dict_get temps k = dict_get d k.
Proof.
  revert d. induction hw as [|h rest IH]; intros d Hrun Hk; cbn [hardware_loop] in Hrun.
  - inversion Hrun. reflexivity.
  - cbn [map In] in Hk.
    destruct (Update_raises h); [discriminate Hrun|]. cbn [step bind] in Hrun.
    destruct (collect_group (Sensors h)) as [|e es].
    + apply IH; [exact Hrun | tauto].
    + rewrite (IH _ Hrun) by tauto. apply dict_get_set_other. tauto.
Qed.

Lemma hardware_loop_stores hw d temps h :
  hardware_loop hw d = inr temps ->
  NoDup (map Name hw) ->
  In h hw ->
  collect_group (Sensors h) <> [] ->
  dict_get temps (Name h) = Some (collect_group (Sensors h)).
Proof.
  revert d. induction hw as [|h0 rest IH]; intros d Hrun Hnd Hin Hne; [destruct Hin|].
  cbn [hardware_loop] in Hrun. cbn [map] in Hnd. inversion Hnd as [|? ? Hfresh Hnd']; subst.
  destruct (Update_raises h0); [discriminate Hrun|]. cbn [step bind] in Hrun.
  destruct Hin as [-> | Hin].
  - destruct (collect_group (Sensors h)) as [|e es] eqn:C; [contradiction|].
    rewrite (hardware_loop_other _ _ _ _ Hrun Hfresh). apply dict_get_set_same.
  - destruct (collect_group (Sensors h0)); apply (IH _ Hrun Hnd' Hin Hne).
Qed.

(** C9: a temperature sensor without a value is kept in the entry list
    of its group, with NaN as its current value; and when the query
    succeeds and hardware names are distinct, that list is what the
    result holds under the group's name. *)
Theorem C9_null_value_recorded_as_nan (h : hardware_item) (s : sensor) :
  In s (Sensors h) ->
  SensorType s = Temperature ->
  Value s = None ->
  In {| label := SensorName s; current := NaN |} (collect_group (Sensors h)) /\
  (forall g c temps,
     get_temperatures_lhm g c = (temps, None) ->
     In h (Hardware c) ->
     NoDup (map Name (Hardware c)) ->
     dict_get temps (Name h) = Some (collect_group (Sensors h))).
Proof.
  intros Hs Ht Hv.
  assert (Hin : In {| label := SensorName s; current := NaN |} (collect_group (Sensors h))).
  { rewrite collect_group_spec.
    replace {| label := SensorName s; current := NaN |} with (sensor_entry s)
      by (unfold sensor_entry; rewrite Hv; reflexivity).
    apply in_map. apply filter_In. split; [exact Hs|]. rewrite Ht. reflexivity. }
  split; [exact Hin|].
  intros g c temps Hget Hh Hnd.
  unfold get_temperatures_lhm in Hget.
  destruct (negb (libre_hw_monitor_available g)); [discriminate Hget|].
  unfold lhm_try in Hget.
  destruct (Computer_raises c); [discriminate Hget|].
  destruct (Open_raises c); [discriminate Hget|]. cbn [step bind] in Hget.
  destruct (hardware_loop (Hardware c) []) as [e | d] eqn:L; [discriminate Hget|].
  cbn [bind] in Hget.
  destruct (Close_raises c); [discriminate Hget|]. cbn [step bind ret] in Hget.
  inversion Hget; subst d.
  apply (hardware_loop_stores _ _ _ _ L Hnd Hh).
  intro E. rewrite E in Hin. destruct Hin.
Qed.

Lemma C9_null_value_recorded_as_nan_witness :
  In {| label := "CCD1"; current := NaN |} (collect_group (Sensors Sample.cpu_package)) /\
  dict_get (fst (get_temperatures_lhm Sample.loaded Sample.healthy)) "AMD Ryzen 7"
  = Some (collect_group (Sensors Sample.cpu_package)).
Proof.
  destruct (C9_null_value_recorded_as_nan Sample.cpu_package
              {| SensorType := Temperature; SensorName := "CCD1"; Value := None |})
    as [H1 H2].
  - right. right. left. reflexivity.
  - reflexivity.
  - reflexivity.
  - split; [exact H1|].
    apply (H2 Sample.loaded Sample.healthy
              (fst (get_temperatures_lhm Sample.loaded Sample.healthy))).
    + reflexivity.
    + left. reflexivity.
    + repeat (constructor; [ simpl; intuition discriminate | ]). constructor.
Defined.

(** Two hardware items of the same name share one key: the later list
    replaces the earlier one. *)
Example same_name_overwrites :
  let twin := {| Update_raises := None; Name := "NVIDIA GeForce";
                 Sensors := [ {| SensorType := Temperature; SensorName := "GPU Core";
                                 Value := Some (Fin 61) |} ] |} in
  let c := {| Computer_raises := None; Open_raises := None;
              Hardware := [Sample.gpu; twin]; Close_raises := None |} in
  get_temperatures_lhm Sample.loaded c
  = ([("NVIDIA GeForce", [ {| label := "GPU Core"; current := Fin 61 |} ])], None).
Proof. reflexivity. Qed.

(** ** Exceptions of the primary source: facts *)

Lemma hardware_loop_raises hw d :
  (exists h, In h hw /\ Update_raises h <> None) ->
  exists e, hardware_loop hw d = inl e.
Proof.
  revert d. induction hw as [|h0 rest IH]; intros d [h [Hin Hr]]; [destruct Hin|].
  cbn [hardware_loop].
  destruct (Update_raises h0) as [e|] eqn:U; [exists e; reflexivity|].
  cbn [step bind].
  destruct Hin as [-> | Hin]; [congruence|].
  destruct (collect_group (Sensors h0)); apply IH; exists h; auto.
Qed.

Lemma lhm_try_raises c : backend_raises c -> exists e, lhm_try c = inl e.
Proof.
  unfold backend_raises, lhm_try. intro H.
  destruct (Computer_raises c) as [e|]; [exists e; reflexivity|].
  destruct (Open_raises c) as [e|]; [exists e; reflexivity|].
  cbn [step bind].
  destruct (hardware_loop (Hardware c) []) as [e | d] eqn:L; [exists e; reflexivity|].
  cbn [bind].
  destruct (Close_raises c) as [e|]; [exists e; reflexivity|].
  exfalso. destruct H as [H | [H | [H | H]]]; try congruence.
  destruct (hardware_loop_raises _ [] H) as [e He]. congruence.
Qed.

(** C10: when a step of the query raises, the result is the empty map
    with the error text; and whenever an error text is returned, the map
    beside it is empty. *)
Theorem C10_error_means_empty_map (g : globals) (c : computer) :
  (libre_hw_monitor_available g = true ->
   backend_raises c ->
   exists e, get_temperatures_lhm g c
             = ([], Some ("Error during LibreHardwareMonitor operation: " ++ e))) /\
  (forall msg, snd (get_temperatures_lhm g c) = Some msg ->
               fst (get_temperatures_lhm g c) = []).
Proof.
  split.
  - intros Ha Hr. destruct (lhm_try_raises c Hr) as [e He].
    exists e. unfold get_temperatures_lhm. rewrite Ha, He. reflexivity.
  - intros msg H.
    destruct (get_temperatures_lhm_cases g c) as [[_ [temps [_ E]]] | [m [E _]]];
      rewrite E in *; [discriminate H | reflexivity].
Qed.

Lemma C10_error_means_empty_map_witness :
  (exists e, get_temperatures_lhm Sample.loaded Sample.failing
             = ([], Some ("Error during LibreHardwareMonitor operation: " ++ e))) /\
  fst (get_temperatures_lhm Sample.loaded Sample.failing) = [].
Proof.
  destruct (C10_error_means_empty_map Sample.loaded Sample.failing) as [H1 H2].
  split.
  - apply H1.
    + reflexivity.
    + right. right. left. exists Sample.broken_gpu.
      split; [right; left; reflexivity | discriminate].
  - apply (H2 "Error during LibreHardwareMonitor operation: device lost").
    reflexivity.
Defined.

(** * Further properties *)

(** ** get_size_gb *)

Lemma scale_bytes_range (x : Q) :
  0 <= x -> x < pow1024 6 ->
  let '(v, u) := scale_bytes x in
  0 <= v /\ v < 1024 /\
  (1024 <= x -> 1 <= v /\ u <> "") /\
  (x < 1024 -> u = "" /\ v = x).
Proof.
  intros Hx Hlt. unfold scale_bytes, units. cbn [scale_loop].
  destruct (Py.ltb x factor) eqn:E0;
  [| destruct (Py.ltb (x / factor) factor) eqn:E1;
  [| destruct (Py.ltb (x / factor / factor) factor) eqn:E2;
  [| destruct (Py.ltb (x / factor / factor / factor) factor) eqn:E3;
  [| destruct (Py.ltb (x / factor / factor / factor / factor) factor) eqn:E4;
  [| destruct (Py.ltb (x / factor / factor / factor / factor / factor) factor) eqn:E5 ]]]]].
  7: exfalso; q_linear; lra.
  all: q_linear; repeat split; try lra; try discriminate; try reflexivity.
  all: intros; exfalso; lra.
Qed.

Lemma Qabs_nonneg_eq (v : Q) : 0 <= v -> Qabs v = v.
Proof.
  destruct v as [n d]. unfold Qle, Qabs. cbn [Qnum Qden]. intro H.
  rewrite Z.abs_eq by lia. reflexivity.
Qed.

(** Rounding a value of [0, n) to the nearest integer stays in [0, n]. *)
Lemma round_half_even_bounds (q : Q) (n : Z) :
  0 <= q -> q < inject_Z n -> (0 <= Py.round_half_even q <= n)%Z.
Proof.
  intros H0 Hn.
  assert (Hf0 : (0 <= Qfloor q)%Z).
  { change 0%Z with (Qfloor 0). apply Qfloor_resp_le. exact H0. }
  assert (Hfn : (Qfloor q < n)%Z).
  { rewrite Zlt_Qlt. apply Qle_lt_trans with q; [apply Qfloor_le | exact Hn]. }
  unfold Py.round_half_even.
  destruct (Qcompare (q - inject_Z (Qfloor q)) (1 # 2)); [destruct (Z.even (Qfloor q))| |]; lia.
Qed.

(** The text of a non-negative value with two decimals: the digits of
    the rounded hundredths. *)
Lemma format_f_2_nonneg (v : Q) :
  0 <= v ->
  Py.format_f 2 v
  = Py.digits (Py.round_half_even (v * 100) / 100) ++ "."
    ++ Py.zfill 2 (Py.digits (Py.round_half_even (v * 100) mod 100)).
Proof.
  intro Hv. unfold Py.format_f.
  assert (Hs : Py.ltb v 0 = false) by (apply ltb_false_iff; exact Hv).
  rewrite Hs, (Qabs_nonneg_eq v Hv). reflexivity.
Qed.

(** X1: for a non-negative input below 1024^6, get_size_gb prints the
    two-decimal rounding of a value in [0, 1024), so the number it
    prints never exceeds 1024.00; from 1024 on the value is at least 1
    and the unit is not the bare B; below 1024 the input itself is what
    is formatted. *)
Theorem scaled_value_range (x : Q) (suffix : string) :
  0 <= x -> x < pow1024 6 ->
  let '(v, u) := scale_bytes x in
  let hundredths := Py.round_half_even (v * 100) in
  get_size_gb x suffix
  = (Py.digits (hundredths / 100) ++ "."
     ++ Py.zfill 2 (Py.digits (hundredths mod 100))) ++ u ++ suffix /\
  (0 <= hundredths <= 102400)%Z /\
  0 <= v /\ v < 1024 /\
  (1024 <= x -> 1 <= v /\ u <> "") /\
  (x < 1024 -> u = "" /\ v = x).
Proof.
  intros Hx Hlt. pose proof (scale_bytes_range x Hx Hlt) as R.
  unfold get_size_gb. destruct (scale_bytes x) as [v u].
  destruct R as [H0 [H1 [Hge Hsmall]]]. cbn zeta.
  split; [rewrite (format_f_2_nonneg v H0); reflexivity|].
  split; [apply round_half_even_bounds; [lra | change (inject_Z 102400) with 102400; lra]|].
  repeat split; try assumption; try (apply Hge; assumption); try (apply Hsmall; assumption).
Qed.

Lemma scaled_value_range_witness :
  let '(v, u) := scale_bytes 1048575 in
  let hundredths := Py.round_half_even (v * 100) in
  get_size_gb 1048575 "B"
  = (Py.digits (hundredths / 100) ++ "."
     ++ Py.zfill 2 (Py.digits (hundredths mod 100))) ++ u ++ "B" /\
  (0 <= hundredths <= 102400)%Z /\
  0 <= v /\ v < 1024 /\
  (1024 <= 1048575 -> 1 <= v /\ u <> "") /\
  (1048575 < 1024 -> u = "" /\ v = 1048575).
Proof. apply (scaled_value_range 1048575 "B"); [discriminate | reflexivity]. Defined.

(** The bound is reached: one byte short of a mebibyte reads 1024.00KB. *)
Example get_size_gb_rounds_up_to_1024 :
  get_size_gb 1048575 "B" = "1024.00KB".
Proof. vm_compute. reflexivity. Qed.

Lemma format_f_negative prec x :
  x < 0 -> Py.format_f prec x = "-" ++ Py.format_f prec (- x).
Proof.
  intro Hx. unfold Py.format_f.
  assert (Hs : Py.ltb x 0 = true) by (apply ltb_true_iff; exact Hx).
  assert (Hn : Py.ltb (- x) 0 = false) by (apply ltb_false_iff; lra).
  rewrite Hs, Hn.
  assert (Ha : Qabs (- x) = Qabs x).
  { destruct x as [n d]. unfold Qabs, Qopp. cbn [Qnum Qden].
    rewrite Z.abs_opp. reflexivity. }
  rewrite Ha. reflexivity.
Qed.

(** X2: a rate that came out negative is printed in plain bytes whatever
    its size: a minus sign, the magnitude with two decimals, and B. *)
Theorem negative_rate_printed_unscaled (g : globals) (io : snetio) (t : Q) :
  0 < t - last_time_net g ->
  (bytes_sent io < bytes_sent (last_net_io g))%Z ->
  let up := upload_of (fst (get_network_speed g io t)) in
  get_size_gb up "B" = "-" ++ Py.format_f 2 (- up) ++ "B".
Proof.
  intros Hpos Hlt up.
  assert (Hneg : up < 0).
  { subst up.
    assert (Hnz : ~ t - last_time_net g == 0) by (intro E; rewrite E in Hpos; discriminate).
    rewrite get_network_speed_nonzero by exact Hnz.
    unfold upload_of. cbn [fst].
    apply Qlt_shift_div_r; [exact Hpos|].
    rewrite Qmult_0_l. change 0 with (inject_Z 0). rewrite <- Zlt_Qlt. lia. }
  unfold get_size_gb, scale_bytes, units. cbn [scale_loop].
  assert (Hs : Py.ltb up factor = true)
    by (apply ltb_true_iff; unfold factor; lra).
  rewrite Hs. rewrite (format_f_negative 2 up Hneg). reflexivity.
Qed.

Lemma negative_rate_printed_unscaled_witness :
  let up := upload_of (fst (get_network_speed
                              (baseline {| bytes_sent := 5 * 1024 ^ 3; bytes_recv := 0 |} 10)
                              {| bytes_sent := 0; bytes_recv := 0 |} 11)) in
  get_size_gb up "B" = "-" ++ Py.format_f 2 (- up) ++ "B".
Proof.
  apply (negative_rate_printed_unscaled
           (baseline {| bytes_sent := 5 * 1024 ^ 3; bytes_recv := 0 |} 10)
           {| bytes_sent := 0; bytes_recv := 0 |} 11); reflexivity.
Defined.

(** ** get_network_speed *)

(** X3: a call that sees no elapsed time leaves the globals as they
    were, so the call after it gives what it would have given alone. *)
Theorem zero_elapsed_call_is_invisible
    (g : globals) (io1 io2 : snetio) (t1 t2 : Q) :
  t1 - last_time_net g == 0 ->
  snd (get_network_speed g io1 t1) = g /\
  get_network_speed (snd (get_network_speed g io1 t1)) io2 t2
  = get_network_speed g io2 t2.
Proof.
  intro H. rewrite get_network_speed_zero by exact H. split; reflexivity.
Qed.

Lemma zero_elapsed_call_is_invisible_witness :
  let g := baseline {| bytes_sent := 1000; bytes_recv := 2000 |} 5 in
  snd (get_network_speed g {| bytes_sent := 9000; bytes_recv := 9000 |} 5) = g.
Proof.
  intro g.
  destruct (zero_elapsed_call_is_invisible g
              {| bytes_sent := 9000; bytes_recv := 9000 |}
              {| bytes_sent := 9500; bytes_recv := 9500 |} 5 6) as [H _].
  - reflexivity.
  - exact H.
Defined.

(** X5: while the counters do not go down and the clock does not go
    back, no reported rate is negative. *)
Theorem rates_nonnegative (g : globals) (io : snetio) (t : Q) :
  0 <= t - last_time_net g ->
  (bytes_sent (last_net_io g) <= bytes_sent io)%Z ->
  (bytes_recv (last_net_io g) <= bytes_recv io)%Z ->
  let r := fst (get_network_speed g io t) in
  0 <= upload_of r /\ 0 <= download_of r.
Proof.
  intros He Hs Hr r. subst r.
  destruct (Qeq_dec (t - last_time_net g) 0) as [Hz | Hnz].
  - rewrite get_network_speed_zero by exact Hz. split; discriminate.
  - rewrite get_network_speed_nonzero by exact Hnz.
    unfold upload_of, download_of. cbn [fst snd].
    assert (Hpos : 0 < t - last_time_net g) by lra.
    assert (Hq : forall d : Z, (0 <= d)%Z -> 0 <= inject_Z d / (t - last_time_net g)).
    { intros d Hd. apply Qle_shift_div_l; [exact Hpos|].
      rewrite Qmult_0_l. change 0 with (inject_Z 0). rewrite <- Zle_Qle. exact Hd. }
    split; apply Hq; lia.
Qed.

Lemma rates_nonnegative_witness :
  let r := fst (get_network_speed (baseline {| bytes_sent := 1000; bytes_recv := 2000 |} 0)
                  {| bytes_sent := 3000; bytes_recv := 2500 |} 2) in
  0 <= upload_of r /\ 0 <= download_of r.
Proof.
  apply (rates_nonnegative (baseline {| bytes_sent := 1000; bytes_recv := 2000 |} 0)
           {| bytes_sent := 3000; bytes_recv := 2500 |} 2);
    discriminate.
Defined.

(** X6: from 1024^6 on, the fall-through return prints the input
    divided by 1024^6 under the unit P. *)
Theorem exbibytes_printed_under_P (x : Q) :
  pow1024 6 <= x ->
  let '(v, u) := scale_bytes x in
  u = "P" /\ v == x / pow1024 6.
Proof.
  intro Hx. unfold scale_bytes, units. cbn [scale_loop].
  destruct (Py.ltb x factor) eqn:E0;
  [| destruct (Py.ltb (x / factor) factor) eqn:E1;
  [| destruct (Py.ltb (x / factor / factor) factor) eqn:E2;
  [| destruct (Py.ltb (x / factor / factor / factor) factor) eqn:E3;
  [| destruct (Py.ltb (x / factor / factor / factor / factor) factor) eqn:E4;
  [| destruct (Py.ltb (x / factor / factor / factor / factor / factor) factor) eqn:E5 ]]]]].
  1-6: exfalso; q_linear; lra.
  split; [reflexivity | q_linear; lra].
Qed.

Lemma exbibytes_printed_under_P_witness :
  let '(v, u) := scale_bytes (inject_Z (3 * 1024 ^ 6)) in
  u = "P" /\ v == inject_Z (3 * 1024 ^ 6) / pow1024 6.
Proof. apply (exbibytes_printed_under_P (inject_Z (3 * 1024 ^ 6))). discriminate. Defined.

(** ** get_temperatures_lhm *)

Lemma hardware_loop_completes hw d :
  (forall h, In h hw -> Update_raises h = None) ->
  exists temps, hardware_loop hw d = inr temps.
Proof.
  revert d. induction hw as [|h rest IH]; intros d Hok; cbn [hardware_loop].
  - exists d. reflexivity.
  - rewrite (Hok h) by (left; reflexivity). cbn [step bind].
    destruct (collect_group (Sensors h)); apply IH; intros h' Hh'; apply Hok; right; exact Hh'.
Qed.

(** X7: with the backend loaded, the query returns no error text
    exactly when no step on the backend raises. *)
Theorem lhm_succeeds_iff_nothing_raises (g : globals) (c : computer) :
  libre_hw_monitor_available g = true ->
  (snd (get_temperatures_lhm g c) = None <-> ~ backend_raises c).
Proof.
  intro Ha. split.
  - intros Hnone Hr. destruct (lhm_try_raises c Hr) as [e He].
    unfold get_temperatures_lhm in Hnone. rewrite Ha, He in Hnone. discriminate Hnone.
  - intro Hn. unfold backend_raises in Hn.
    unfold get_temperatures_lhm, lhm_try. rewrite Ha. cbn [negb].
    destruct (Computer_raises c) as [e|]; [exfalso; apply Hn; left; discriminate|].
    destruct (Open_raises c) as [e|]; [exfalso; apply Hn; right; left; discriminate|].
    cbn [step bind].
    destruct (hardware_loop_completes (Hardware c) []) as [temps ->].
    { intros h Hh. destruct (Update_raises h) as [e|] eqn:U; [|reflexivity].
      exfalso. apply Hn. right. right. left. exists h. split; [exact Hh | congruence]. }
    cbn [bind].
    destruct (Close_raises c) as [e|]; [exfalso; apply Hn; right; right; right; discriminate|].
    reflexivity.
Qed.

Lemma lhm_succeeds_iff_nothing_raises_witness :
  snd (get_temperatures_lhm Sample.loaded Sample.healthy) = None <->
  ~ backend_raises Sample.healthy.
Proof.
  apply (lhm_succeeds_iff_nothing_raises Sample.loaded Sample.healthy). reflexivity.
Defined.

Lemma dict_set_In {V} (d : dict V) k v k' v' :
  In (k', v') (dict_set d k v) -> (k' = k /\ v' = v) \/ In (k', v') d.
Proof.
  induction d as [|[k0 v0] rest IH]; cbn [dict_set].
  - intros [H | []]. inversion H. left. auto.
  - destruct (String.eqb k0 k) eqn:E.
    + apply String.eqb_eq in E. subst k0.
      intros [H | H]; [inversion H; left; auto | right; right; exact H].
    + intros [H | H]; [right; left; exact H|].
      destruct (IH H) as [L | R]; [left; exact L | right; right; exact R].
Qed.

Lemma dict_set_key_In {V} (d : dict V) k v k' :
  In k' (map fst (dict_set d k v)) -> k' = k \/ In k' (map fst d).
Proof.
  intro H. apply in_map_iff in H. destruct H as [[k0 v0] [E Hin]]. cbn [fst] in E. subst k0.
  destruct (dict_set_In _ _ _ _ _ Hin) as [[-> _] | R]; [left; reflexivity|].
  right. apply in_map_iff. exists (k', v0). split; [reflexivity | exact R].
Qed.

Lemma dict_set_NoDup {V} (d : dict V) k v :
  NoDup (map fst d) -> NoDup (map fst (dict_set d k v)).
Proof.
  induction d as [|[k0 v0] rest IH]; cbn [dict_set map fst]; intro Hnd.
  - constructor; [intros [] | constructor].
  - inversion Hnd as [|? ? Hfresh Hnd']; subst.
    destruct (String.eqb k0 k) eqn:E; cbn [map fst].
    + constructor; assumption.
    + constructor; [| apply IH; exact Hnd'].
      intro Hin. destruct (dict_set_key_In _ _ _ _ Hin) as [-> | R]; [| contradiction].
      rewrite String.eqb_refl in E. discriminate E.
Qed.

Lemma hardware_loop_groups all hw d temps :
  (forall h, In h hw -> In h all) ->
  groups_from all d ->
  hardware_loop hw d = inr temps ->
  groups_from all temps.
Proof.
  revert d. induction hw as [|h rest IH]; intros d Hsub Hinv Hrun; cbn [hardware_loop] in Hrun.
  - inversion Hrun; subst. exact Hinv.
  - destruct (Update_raises h); [discriminate Hrun|]. cbn [step bind] in Hrun.
    assert (Hrest : forall h', In h' rest -> In h' all)
      by (intros h' Hh'; apply Hsub; right; exact Hh').
    destruct (collect_group (Sensors h)) as [|e es] eqn:C.
    + apply (IH d Hrest Hinv Hrun).
    + apply (IH (dict_set d (Name h) (e :: es)) Hrest); [| exact Hrun].
      destruct Hinv as [Hnd Hgroups]. split; [apply dict_set_NoDup; exact Hnd|].
      intros group entries Hin.
      destruct (dict_set_In _ _ _ _ _ Hin) as [[-> ->] | Hold]; [| apply Hgroups; exact Hold].
      split; [discriminate|].
      exists h. split; [apply Hsub; left; reflexivity|]. split; [reflexivity|].
      unfold temperature_entries. rewrite <- collect_group_spec. symmetry. exact C.
Qed.

Lemma get_temperatures_lhm_success g c temps :
  get_temperatures_lhm g c = (temps, None) ->
  hardware_loop (Hardware c) [] = inr temps.
Proof.
  unfold get_temperatures_lhm, lhm_try. intro Hget.
  destruct (negb (libre_hw_monitor_available g)); [discriminate Hget|].
  destruct (Computer_raises c); [discriminate Hget|].
  destruct (Open_raises c); [discriminate Hget|]. cbn [step bind] in Hget.
  destruct (hardware_loop (Hardware c) []) as [e | d]; [discriminate Hget|].
  cbn [bind] in Hget.
  destruct (Close_raises c); [discriminate Hget|]. cbn [step bind ret] in Hget.
  inversion Hget. reflexivity.
Qed.

(** X8: in a successful result the group names are distinct, no group
    is empty, and every group is the list of the temperature sensors, in
    order, of a hardware item of that name: sensors of other types never
    appear. *)
Theorem lhm_result_groups (g : globals) (c : computer) (temps : dict (list entry)) :
  get_temperatures_lhm g c = (temps, None) ->
  NoDup (map fst temps) /\
  forall group entries,
    In (group, entries) temps ->
    entries <> [] /\
    exists h, In h (Hardware c) /\ Name h = group /\ entries = temperature_entries h.
Proof.
  intro Hget. apply get_temperatures_lhm_success in Hget.
  apply (hardware_loop_groups (Hardware c) (Hardware c) [] temps); auto.
  split; [constructor | intros group entries []].
Qed.

Lemma lhm_result_groups_witness :
  NoDup (map fst (fst (get_temperatures_lhm Sample.loaded Sample.healthy))) /\
  forall group entries,
    In (group, entries) (fst (get_temperatures_lhm Sample.loaded Sample.healthy)) ->
    entries <> [] /\
    exists h, In h (Hardware Sample.healthy) /\ Name h = group /\
              entries = temperature_entries h.
Proof.
  apply (lhm_result_groups Sample.loaded Sample.healthy). reflexivity.
Defined.

Lemma groups_any_values all (d : dict (list entry)) :
  groups_from all d -> any_values d = nonempty d.
Proof.
  intros [_ Hgroups].
  destruct d as [|[group entries] rest]; [reflexivity|].
  cbn [any_values existsb snd nonempty].
  destruct (Hgroups group entries) as [Hne _]; [left; reflexivity|].
  destruct entries; [contradiction | reflexivity].
Qed.

(** X9: so the second half of the test [not lhm_temps or not
    any(lhm_temps.values())] adds nothing: on a successful result a
    group with a value list exists as soon as the dict is not empty. *)
Theorem any_values_of_lhm_result (g : globals) (c : computer) (temps : dict (list entry)) :
  get_temperatures_lhm g c = (temps, None) ->
  any_values temps = nonempty temps.
Proof.
  intro Hget. apply get_temperatures_lhm_success in Hget.
  apply (groups_any_values (Hardware c)).
  apply (hardware_loop_groups (Hardware c) (Hardware c) [] temps); auto.
  split; [constructor | intros group entries []].
Qed.

Lemma any_values_of_lhm_result_witness :
  any_values (fst (get_temperatures_lhm Sample.loaded Sample.healthy))
  = nonempty (fst (get_temperatures_lhm Sample.loaded Sample.healthy)).
Proof.
  apply (any_values_of_lhm_result Sample.loaded Sample.healthy). reflexivity.
Defined.

Lemma hardware_loop_app pre post d :
  hardware_loop (pre ++ post) d
  = bind (hardware_loop pre d) (fun d' => hardware_loop post d').
Proof.
  revert d. induction pre as [|h rest IH]; intro d; cbn [app hardware_loop]; [reflexivity|].
  destruct (Update_raises h); [reflexivity|]. cbn [step bind].
  destruct (collect_group (Sensors h)); apply IH.
Qed.

Lemma hardware_loop_keeps hw d temps k :
  hardware_loop hw d = inr temps ->
  (forall h, In h hw -> Name h = k -> collect_group (Sensors h) = []) ->
  dict_get temps k = dict_get d k.
Proof.
  revert d. induction hw as [|h rest IH]; intros d Hrun Hk; cbn [hardware_loop] in Hrun.
  - inversion Hrun. reflexivity.
  - destruct (Update_raises h); [discriminate Hrun|]. cbn [step bind] in Hrun.
    assert (Hrest : forall h', In h' rest -> Name h' = k -> collect_group (Sensors h') = [])
      by (intros h' Hh'; apply Hk; right; exact Hh').
    destruct (collect_group (Sensors h)) as [|e es] eqn:C.
    + apply (IH _ Hrun Hrest).
    + rewrite (IH _ Hrun Hrest). apply dict_get_set_other.
      intro E. rewrite (Hk h (or_introl eq_refl) E) in C. discriminate C.
Qed.

(** X10: of the hardware items that share a name and have temperature
    sensors, the last one is the one found under that name. *)
Theorem last_item_of_a_name_wins
    (g : globals) (c : computer) (temps : dict (list entry))
    (pre post : list hardware_item) (h : hardware_item) :
  get_temperatures_lhm g c = (temps, None) ->
  Hardware c = (pre ++ h :: post)%list ->
  temperature_entries h <> [] ->
  (forall h', In h' post -> Name h' = Name h -> temperature_entries h' = []) ->
  dict_get temps (Name h) = Some (temperature_entries h).
Proof.
  unfold temperature_entries. intros Hget Hhw Hne Hpost.
  apply get_temperatures_lhm_success in Hget.
  rewrite Hhw, hardware_loop_app in Hget.
  destruct (hardware_loop pre []) as [e | d]; [discriminate Hget|]. cbn [bind] in Hget.
  cbn [hardware_loop] in Hget.
  destruct (Update_raises h); [discriminate Hget|]. cbn [step bind] in Hget.
  rewrite <- collect_group_spec in *.
  destruct (collect_group (Sensors h)) as [|e es] eqn:C; [contradiction|].
  rewrite (hardware_loop_keeps _ _ _ (Name h) Hget).
  - apply dict_get_set_same.
  - intros h' Hh' E. rewrite collect_group_spec. apply Hpost; assumption.
Qed.

Lemma last_item_of_a_name_wins_witness :
  let twin := {| Update_raises := None; Name := "NVIDIA GeForce";
                 Sensors := [ {| SensorType := Temperature; SensorName := "GPU Core";
                                 Value := Some (Fin 61) |} ] |} in
  let c := {| Computer_raises := None; Open_raises := None;
              Hardware := [Sample.gpu; twin; Sample.cpu_package]; Close_raises := None |} in
  dict_get (fst (get_temperatures_lhm Sample.loaded c)) "NVIDIA GeForce"
  = Some (temperature_entries twin).
Proof.
  intros twin c.
  apply (last_item_of_a_name_wins Sample.loaded c
           (fst (get_temperatures_lhm Sample.loaded c))
           [Sample.gpu] [Sample.cpu_package] twin).
  - reflexivity.
  - reflexivity.
  - discriminate.
  - intros h' [<- | []] E. discriminate E.
Defined.

(** ** The backend handle *)

Lemma hardware_ops_spec hw :
  (snd (hardware_ops hw) = true <-> forall h, In h hw -> Update_raises h = None) /\
  ~ In OpClose (fst (hardware_ops hw)) /\
  ~ In OpOpen (fst (hardware_ops hw)).
Proof.
  induction hw as [|h rest [IHc [IHn IHo]]]; cbn [hardware_ops].
  - split; [split; [intros _ h [] | reflexivity] | split; intros []].
  - destruct (Update_raises h) as [e|] eqn:U.
    + cbn [fst snd]. repeat split.
      * discriminate.
      * intro Hall. specialize (Hall h (or_introl eq_refl)). congruence.
      * intros [H | []]. discriminate H.
      * intros [H | []]. discriminate H.
    + destruct (hardware_ops rest) as [ops completed]. cbn [fst snd] in *.
      repeat split.
      * intros Hc h' [<- | Hh']; [exact U | apply IHc; assumption].
      * intro Hall. apply IHc. intros h' Hh'. apply Hall. right. exact Hh'.
      * intros [H | H]; [discriminate H | contradiction].
      * intros [H | H]; [discriminate H | contradiction].
Qed.

(** X11: the handle that [Open()] gave is closed exactly when the
    constructor, [Open()] and every [Update()] went through; when an
    [Update()] raises after a successful [Open()], [Close()] is never
    called. *)
Theorem lhm_close_reached_iff (g : globals) (c : computer) :
  (In OpOpen (lhm_ops g c) <->
   libre_hw_monitor_available g = true /\ Computer_raises c = None) /\
  (In OpClose (lhm_ops g c) <->
   libre_hw_monitor_available g = true /\ Computer_raises c = None /\
   Open_raises c = None /\ forall h, In h (Hardware c) -> Update_raises h = None).
Proof.
  unfold lhm_ops.
  destruct (libre_hw_monitor_available g); cbn [negb];
    [| split; split; [intros [] | intros [H _]; discriminate H
                     | intros [] | intros [H _]; discriminate H]].
  destruct (Computer_raises c) as [e|].
  { split; split.
    - intros [H | []]; discriminate H.
    - intros [_ H]; discriminate H.
    - intros [H | []]; discriminate H.
    - intros [_ [H _]]; discriminate H. }
  destruct (Open_raises c) as [e|].
  { split; split.
    - intros _. auto.
    - intros _. right. left. reflexivity.
    - intros [H | [H | []]]; discriminate H.
    - intros [_ [_ [H _]]]; discriminate H. }
  destruct (hardware_ops_spec (Hardware c)) as [Hc [Hn Ho]].
  destruct (hardware_ops (Hardware c)) as [ops completed]. cbn [fst snd] in *.
  split; split.
  - intros _. auto.
  - intros _. right. left. reflexivity.
  - intros [H | [H | H]]; try discriminate H.
    apply in_app_or in H. destruct H as [H | H]; [contradiction|].
    destruct completed; [| destruct H].
    repeat split; try reflexivity. apply Hc. reflexivity.
  - intros [_ [_ [_ Hall]]]. right. right. apply in_or_app. right.
    apply Hc in Hall. rewrite Hall. left. reflexivity.
Qed.

Lemma lhm_close_reached_iff_witness :
  In OpOpen (lhm_ops Sample.loaded Sample.failing) /\
  ~ In OpClose (lhm_ops Sample.loaded Sample.failing).
Proof.
  destruct (lhm_close_reached_iff Sample.loaded Sample.failing) as [Hopen Hclose].
  split.
  - apply Hopen. split; reflexivity.
  - intro H. apply Hclose in H. destruct H as [_ [_ [_ Hall]]].
    specialize (Hall Sample.broken_gpu (or_intror (or_introl eq_refl))).
    discriminate Hall.
Defined.

(** The calls counted by [lhm_ops] are those of the [try] block: the
    loop runs to its end exactly when [hardware_loop] returns a value. *)
Lemma hardware_ops_agree hw d :
  snd (hardware_ops hw) = true <-> exists temps, hardware_loop hw d = inr temps.
Proof.
  revert d. induction hw as [|h rest IH]; intro d; cbn [hardware_ops hardware_loop].
  - split; [intros _; exists d; reflexivity | reflexivity].
  - destruct (Update_raises h) as [e|]; cbn [step bind].
    + split; [discriminate | intros [temps H]; discriminate H].
    + specialize (IH (match collect_group (Sensors h) with
                      | [] => d
                      | _ => dict_set d (Name h) (collect_group (Sensors h))
                      end)).
      destruct (hardware_ops rest) as [ops completed]. cbn [snd] in *.
      destruct (collect_group (Sensors h)); exact IH.
Qed.

(** X12: a successful query has reached [Close()]. *)
Theorem lhm_success_closes_handle (g : globals) (c : computer) :
  snd (get_temperatures_lhm g c) = None -> In OpClose (lhm_ops g c).
Proof.
  unfold get_temperatures_lhm, lhm_ops, lhm_try.
  destruct (negb (libre_hw_monitor_available g)); [discriminate|].
  destruct (Computer_raises c); [discriminate|].
  destruct (Open_raises c); [discriminate|]. cbn [step bind].
  pose proof (hardware_ops_agree (Hardware c) []) as A.
  destruct (hardware_loop (Hardware c) []) as [e | temps]; [discriminate|].
  cbn [bind]. intros _.
  destruct (hardware_ops (Hardware c)) as [ops completed]. cbn [snd] in A.
  assert (completed = true) as -> by (apply A; exists temps; reflexivity).
  right. right. apply in_or_app. right. left. reflexivity.
Qed.

Lemma lhm_success_closes_handle_witness :
  In OpClose (lhm_ops Sample.loaded Sample.healthy).
Proof.
  apply (lhm_success_closes_handle Sample.loaded Sample.healthy). reflexivity.
Defined.

(** ** The renders of display_system_stats *)

Lemma lhm_render_loop_lines items b :
  fst (lhm_render_loop items b) = flat_map render_group items.
Proof.
  revert b. induction items as [|[group entries] rest IH]; intro b;
    cbn [lhm_render_loop flat_map fst]; [reflexivity|].
  unfold render_group at 1. cbn [fst snd].
  destruct entries as [|e es]; [cbn [filter app]; apply IH|].
  destruct (filter is_valid_entry (e :: es)) as [|v vs]; [cbn [app]; apply IH|].
  specialize (IH true). destruct (lhm_render_loop rest true) as [tr printed].
  cbn [fst] in *. rewrite IH. reflexivity.
Qed.

(** X13: the primary render prints, for each group in the order of the
    dict that has an entry other than NaN, its header and one line per
    such entry; NaN entries and groups without a valid entry print
    nothing; and the flag it returns tells whether anything was printed. *)
Theorem primary_render_lines (items : dict (list entry)) (b : bool) :
  fst (lhm_render_loop items b) = flat_map render_group items /\
  snd (lhm_render_loop items false) = nonempty (flat_map render_group items).
Proof.
  split; [apply lhm_render_loop_lines|].
  rewrite lhm_render_loop_flag. cbn [orb].
  induction items as [|[group entries] rest IH]; [reflexivity|].
  cbn [flat_map]. unfold has_finite in *. cbn [existsb snd].
  unfold render_group at 1. cbn [fst snd].
  destruct (filter is_valid_entry entries) as [|v vs] eqn:F.
  - apply filter_valid_nil in F. rewrite F. cbn [orb app]. exact IH.
  - destruct (existsb is_valid_entry entries) eqn:X; [reflexivity|].
    apply filter_valid_nil in X. congruence.
Qed.

Lemma psutil_render_loop_lines items b :
  fst (psutil_render_loop items b) = flat_map psutil_group_lines items.
Proof.
  revert b. induction items as [|[name entries] rest IH]; intro b;
    cbn [psutil_render_loop flat_map fst]; [reflexivity|].
  unfold psutil_group_lines at 1. cbn [fst snd].
  destruct entries as [|e es]; [cbn [app]; apply IH|].
  specialize (IH true). destruct (psutil_render_loop rest true) as [tr found].
  cbn [fst] in *. rewrite IH. reflexivity.
Qed.

(** X14: the fallback render prints, for each non-empty group in the
    order of the dict, its header and the lines of its entries, and its
    flag tells whether some group was non-empty. *)
Theorem fallback_render_lines (items : dict (list shwtemp)) (b : bool) :
  fst (psutil_render_loop items b) = flat_map psutil_group_lines items /\
  snd (psutil_render_loop items b) = b || any_values items.
Proof.
  split; [apply psutil_render_loop_lines|].
  revert b. induction items as [|[name entries] rest IH]; intro b;
    cbn [psutil_render_loop snd any_values existsb].
  - rewrite orb_false_r. reflexivity.
  - destruct entries as [|e es].
    + cbn [nonempty orb]. apply IH.
    + specialize (IH true).
      destruct (psutil_render_loop rest true) as [tr found]. cbn [snd] in *.
      rewrite IH. cbn [nonempty]. rewrite orb_true_r. reflexivity.
Qed.

(** ** The platform queries of a cycle *)

Lemma calls_app (a b : trace) : calls (a ++ b)%list = (calls a ++ calls b)%list.
Proof. apply flat_map_app. Qed.

Lemma calls_entry_lines valid : calls (map lhm_entry_line valid) = [].
Proof. induction valid as [|e es IH]; [reflexivity | exact IH]. Qed.

Lemma calls_render_groups items : calls (flat_map render_group items) = [].
Proof.
  induction items as [|[group entries] rest IH]; [reflexivity|].
  cbn [flat_map]. rewrite calls_app, IH, app_nil_r.
  unfold render_group. cbn [fst snd].
  destruct (filter is_valid_entry entries); [reflexivity|].
  apply (calls_entry_lines (e :: l)).
Qed.

Lemma calls_psutil_entry_lines e : calls (psutil_entry_lines e) = [].
Proof.
  unfold psutil_entry_lines, threshold_line.
  destruct (temp_high e) as [h|]; destruct (temp_critical e) as [c|];
    repeat match goal with |- context [Py.truthy_float ?v] => destruct (Py.truthy_float v) end;
    reflexivity.
Qed.

Lemma calls_psutil_groups items : calls (flat_map psutil_group_lines items) = [].
Proof.
  induction items as [|[name entries] rest IH]; [reflexivity|].
  cbn [flat_map]. rewrite calls_app, IH, app_nil_r.
  unfold psutil_group_lines. cbn [fst snd].
  destruct entries as [|e es]; [reflexivity|].
  change (calls (flat_map psutil_entry_lines (e :: es)) = []).
  induction (e :: es) as [|x xs IHx]; [reflexivity|].
  cbn [flat_map]. rewrite calls_app, IHx, calls_psutil_entry_lines. reflexivity.
Qed.

Lemma calls_primary_phase g w :
  calls (fst (primary_phase g w))
  = if libre_hw_monitor_available g then [ApiLhm] else [].
Proof.
  unfold primary_phase.
  destruct (libre_hw_monitor_available g); [|reflexivity].
  destruct (get_temperatures_lhm g (lhm_computer w)) as [temps msg].
  destruct (Py.truthy_str msg); [reflexivity|].
  destruct (negb (nonempty temps) || negb (any_values temps)); [reflexivity|].
  pose proof (lhm_render_loop_lines temps false) as R.
  destruct (lhm_render_loop temps false) as [tr printed]. cbn [fst] in R. subst tr.
  destruct printed; cbn [fst]; change (calls (?a :: ?b :: ?l)) with (ApiLhm :: calls l);
    rewrite ?calls_app, calls_render_groups; reflexivity.
Qed.

Lemma calls_fallback_phase w : calls (fallback_phase w) = [ApiSensorsTemperatures].
Proof.
  unfold fallback_phase.
  change (calls (?a :: ?b :: ?l)) with (ApiSensorsTemperatures :: calls l).
  f_equal.
  destruct (sensors_temperatures w) as [d | | e]; [|reflexivity|reflexivity].
  destruct (negb (nonempty d)).
  - destruct (negb (os_name w =? "nt")%string); reflexivity.
  - pose proof (psutil_render_loop_lines d false) as R.
    destruct (psutil_render_loop d false) as [tr found]. cbn [fst] in R. subst tr.
    destruct found; rewrite ?calls_app, calls_psutil_groups; reflexivity.
Qed.

Lemma calls_core_lines i cores : calls (core_lines i cores) = [].
Proof.
  revert i. induction cores as [|c cs IH]; intro i; [reflexivity|]. apply IH.
Qed.

Lemma calls_disk_loop w disks : calls (disk_loop w disks) = map ApiDiskUsage disks.
Proof.
  induction disks as [|p ps IH]; [reflexivity|].
  cbn [disk_loop map]. rewrite calls_app, IH.
  unfold disk_report. destruct (disk_usage w p); reflexivity.
Qed.

(** X15: the platform queries of a cycle, in order: the per-core CPU
    reading, the aggregate one only when there are no cores, memory and
    swap, each configured disk path once in the configured order, the
    network counters once, the primary temperature source only when the
    backend is loaded, and the fallback source only when the primary
    one gave no finite reading. *)
Theorem cycle_platform_queries
    (g : globals) (DISKS_TO_MONITOR : list string) (w : world) :
  calls (fst (cycle g DISKS_TO_MONITOR w))
  = ([ApiCpuPercentPerCpu]
     ++ (if nonempty (cpu_percent_percpu w) then [] else [ApiCpuPercent])
     ++ [ApiVirtualMemory; ApiSwapMemory]
     ++ map ApiDiskUsage DISKS_TO_MONITOR
     ++ [ApiNetIoCounters]
     ++ (if libre_hw_monitor_available g then [ApiLhm] else [])
     ++ (if has_finite (fst (get_temperatures_lhm g (lhm_computer w)))
         then [] else [ApiSensorsTemperatures]))%list.
Proof.
  unfold cycle, display_system_stats.
  pose proof (network_section_keeps_flag g w) as [Ka Ke].
  assert (Hnet : calls (fst (network_section g w)) = [ApiNetIoCounters]).
  { unfold network_section.
    destruct (get_network_speed g (net_io_counters w) (time_time w))
      as [[[[up down] sent] recv] g']. reflexivity. }
  destruct (network_section g w) as [net g']. cbn [fst snd] in *.
  rewrite (get_temperatures_lhm_ext g g') by congruence.
  rewrite <- primary_phase_reported, <- Ka.
  change (calls (ClearScreen :: ?l)) with (calls l).
  rewrite !calls_app, Hnet.
  assert (Hcpu : calls (cpu_section w)
                 = ([ApiCpuPercentPerCpu]
                    ++ (if nonempty (cpu_percent_percpu w) then [] else [ApiCpuPercent]))%list).
  { unfold cpu_section. destruct (cpu_percent_percpu w) as [|c cs] eqn:E.
    - reflexivity.
    - rewrite !calls_app, calls_core_lines. reflexivity. }
  assert (Hdisk : calls (disk_section DISKS_TO_MONITOR w) = map ApiDiskUsage DISKS_TO_MONITOR).
  { unfold disk_section. rewrite !calls_app, calls_disk_loop.
    cbn [calls flat_map app]. rewrite app_nil_r. reflexivity. }
  assert (Htemp : calls (temperature_section g' w)
                  = ((if libre_hw_monitor_available g' then [ApiLhm] else [])
                     ++ (if snd (primary_phase g' w) then [] else [ApiSensorsTemperatures]))%list).
  { unfold temperature_section.
    pose proof (calls_primary_phase g' w) as P.
    destruct (primary_phase g' w) as [tr reported]. cbn [fst snd] in *.
    rewrite !calls_app, P.
    destruct reported; cbn [negb]; rewrite ?calls_fallback_phase;
      cbn [calls flat_map app]; rewrite ?app_nil_r; reflexivity. }
  rewrite Hcpu, Hdisk, Htemp.
  change (calls (header_section w)) with (@nil api).
  change (calls (memory_section w)) with [ApiVirtualMemory; ApiSwapMemory].
  cbn [calls flat_map app]. rewrite ?app_nil_r, <- ?app_assoc. reflexivity.
Qed.

(** ** The baseline across cycles *)

Lemma cycle_globals g disks w :
  snd (cycle g disks w) = snd (get_network_speed g (net_io_counters w) (time_time w)).
Proof.
  unfold cycle, display_system_stats, network_section.
  destruct (get_network_speed g (net_io_counters w) (time_time w))
    as [[[[up down] sent] recv] g']. reflexivity.
Qed.

(** X16: while the clock goes up from cycle to cycle, the baseline left
    by the loop is the sample of its last cycle, so each cycle's rates
    are taken over the time since the cycle before. *)
Theorem baseline_is_last_cycle_sample
    (g : globals) (DISKS_TO_MONITOR : list string) (ws : list world) (w : world) :
  increasing_from (last_time_net g) (ws ++ [w]) ->
  let g_end := snd (main_loop g DISKS_TO_MONITOR (ws ++ [w])) in
  last_net_io g_end = net_io_counters w /\ last_time_net g_end = time_time w.
Proof.
  revert g. induction ws as [|w0 rest IH]; intros g Hinc; cbn [app main_loop increasing_from] in *.
  - destruct Hinc as [Hlt _].
    pose proof (cycle_globals g DISKS_TO_MONITOR w) as G.
    destruct (cycle g DISKS_TO_MONITOR w) as [tr g']. cbn [snd] in *. subst g'.
    rewrite get_network_speed_nonzero by lra. split; reflexivity.
  - destruct Hinc as [Hlt Hrest].
    pose proof (cycle_globals g DISKS_TO_MONITOR w0) as G.
    destruct (cycle g DISKS_TO_MONITOR w0) as [tr g']. cbn [snd] in G. subst g'.
    rewrite get_network_speed_nonzero by lra. cbn [snd].
    specialize (IH (set_net_baseline g (net_io_counters w0) (time_time w0)) Hrest).
    cbn zeta in IH.
    destruct (main_loop (set_net_baseline g (net_io_counters w0) (time_time w0))
                DISKS_TO_MONITOR (rest ++ [w])) as [trs g''].
    exact IH.
Qed.

Lemma baseline_is_last_cycle_sample_witness :
  let w1 := Sample.machine Sample.healthy in
  let w2 := sampled_at w1 {| bytes_sent := 7000; bytes_recv := 2600 |} 4 in
  let g_end := snd (main_loop (baseline {| bytes_sent := 1000; bytes_recv := 2000 |} 0)
                      ["/"] ([w1] ++ [w2])) in
  last_net_io g_end = {| bytes_sent := 7000; bytes_recv := 2600 |} /\
  last_time_net g_end = 4.
Proof.
  intros w1 w2.
  apply (baseline_is_last_cycle_sample
           (baseline {| bytes_sent := 1000; bytes_recv := 2000 |} 0) ["/"] [w1] w2).
  repeat split.
Defined.

(** ** The outcomes of the primary phase *)

(** X17: with the backend loaded, what follows the attempt line is one
    of four things, decided by the result of the query: the failure line
    with the error text; the no-sensors line for an empty result; the
    rendered groups; or, for a result without a finite value, the
    no-valid-values line. *)
Theorem primary_phase_outcomes (g : globals) (w : world) :
  libre_hw_monitor_available g = true ->
  let '(temps, msg) := get_temperatures_lhm g (lhm_computer w) in
  fst (primary_phase g w)
  = (Print "  Attempting to read temperatures using LibreHardwareMonitorLib..."
     :: Call ApiLhm
     :: match msg with
        | Some m => [ Print ("  LibreHardwareMonitor: Failed. Error: " ++ m) ]
        | None =>
            match temps with
            | [] => [ Print "  LibreHardwareMonitor: No temperature sensors found or no data reported by sensors." ]
            | _ =>
                flat_map render_group temps
                ++ if has_finite temps then []
                   else [ Print "  LibreHardwareMonitor: Sensors might be detected, but no valid temperature values available." ]
            end
        end)%list.
Proof.
  intro Ha. unfold primary_phase. rewrite Ha.
  destruct (get_temperatures_lhm_cases g (lhm_computer w))
    as [[_ [temps [_ E]]] | [msg [E Ht]]].
  - assert (A : any_values temps = nonempty temps).
    { pose proof (get_temperatures_lhm_success _ _ _ E) as L.
      apply (groups_any_values (Hardware (lhm_computer w))).
      apply (hardware_loop_groups _ (Hardware (lhm_computer w)) [] temps); auto.
      split; [constructor | intros group entries []]. }
    rewrite E. cbn [Py.truthy_str]. rewrite A.
    destruct temps as [|kv rest]; [reflexivity|]. cbn [nonempty negb orb].
    pose proof (lhm_render_loop_lines (kv :: rest) false) as R.
    pose proof (lhm_render_loop_flag (kv :: rest) false) as F.
    destruct (lhm_render_loop (kv :: rest) false) as [tr printed].
    cbn [fst snd orb] in *. subst tr printed.
    destruct (has_finite (kv :: rest)); cbn [fst]; rewrite ?app_nil_r; reflexivity.
  - rewrite E, Ht. reflexivity.
Qed.

Lemma primary_phase_outcomes_witness :
  fst (primary_phase Sample.loaded (Sample.machine Sample.silent))
  = [ Print "  Attempting to read temperatures using LibreHardwareMonitorLib...";
      Call ApiLhm;
      Print "  LibreHardwareMonitor: Sensors might be detected, but no valid temperature values available." ].
Proof.
  apply (primary_phase_outcomes Sample.loaded (Sample.machine Sample.silent)).
  reflexivity.
Defined.
